(** * arplogger: the ARP binding logger (package [arp])

    A shallow embedding of [Logger.Log], [NewLogger] and [prettyPrint],
    and the properties of the binding table and of the emitted log lines.

    Conventions of the embedding.
    - A Go [byte] is a [Byte.byte]; a [[]byte] slice is a [list byte]
      (a nil slice and an empty slice are both [[]], as [len] and
      [slices.Equal] do not tell them apart); the array type [[4]byte]
      is a 4-tuple of bytes.
    - The Go [map[ipv4]net.HardwareAddr] is a [gmap].  The order in which
      [range] visits a map is not specified by Go: [Log] takes the order of
      the visit as an argument, and the theorems hold for every enumeration
      of the entries of the table.
    - A run-time panic is the result [None].
    - The [*log.Logger] is the list of the lines handed to it so far (the
      time stamp and the final newline are added by package [log]).
    - Announcements are values: [processPackets] hands each decoded layer to
      [Log] once and never writes to its byte slices afterwards. *)

From Stdlib Require Import ZArith NArith Strings.String Strings.Ascii Strings.Byte Lists.List.
From stdpp Require Import base option gmap list strings pretty.

Local Open Scope string_scope.
Local Open Scope nat_scope.
Local Open Scope list_scope.

(** ** Bytes as map keys *)

#[global] Instance byte_eq_dec : EqDecision byte := Byte.byte_eq_dec.
#[global] Instance byte_countable : Countable byte :=
  inj_countable Byte.to_N Byte.of_N Byte.of_to_N.

(** [s[i]] on a string constant; every index used below is in range. *)
Definition index (s : string) (i : N) : string :=
  match String.get (N.to_nat i) s with
  | Some c => String c ""
  | None => ""
  end.

(** ** The parts of the Go libraries the package calls *)

Module slices.

(** [slices.Equal]: same length and equal elements. *)
Fixpoint Equal (s1 s2 : list byte) : bool :=
  match s1, s2 with
  | [], [] => true
  | a :: s1', b :: s2' => Byte.eqb a b && Equal s1' s2'
  | _, _ => false
  end.

End slices.

Module net.

Definition hexDigit : string := "0123456789abcdef".

(** The loop of [HardwareAddr.String]: a colon before every byte but the
    first, then the two hexadecimal digits of the byte. *)
Fixpoint String_loop (i : nat) (a : list byte) (buf : string) : string :=
  match a with
  | [] => buf
  | b :: a' =>
      let buf := if (0 <? i)%nat then buf +:+ ":" else buf in
      let buf := buf +:+ index hexDigit (N.shiftr (Byte.to_N b) 4) in
      let buf := buf +:+ index hexDigit (N.land (Byte.to_N b) 15) in
      String_loop (S i) a' buf
  end.

(** Modelled from the spec: [net.HardwareAddr.String] of the Go standard
    library, which is not part of the repository; the spec asks for the
    colon-hex form, and this is the library's loop. *)
Definition HardwareAddr_String (a : list byte) : string :=
  if (length a =? 0)%nat then "" else String_loop 0 a "".

End net.

Module netip.

Definition digits : string := "0123456789".

Definition appendDecimal (b : string) (x : byte) : string :=
  let x := Byte.to_N x in
  let b := if (100 <=? x)%N then b +:+ index digits (x / 100) else b in
  let b := if (10 <=? x)%N then b +:+ index digits (x / 10 mod 10) else b in
  b +:+ index digits (x mod 10).

(** An address built by [netip.AddrFrom4] is its four bytes. *)
Definition Addr : Type := byte * byte * byte * byte.

Definition AddrFrom4 (a : byte * byte * byte * byte) : Addr := a.

(** Modelled from the spec: [netip.Addr.String] of the Go standard library
    on an IPv4 address, which is not part of the repository; the spec asks
    for the dotted-decimal form, and this is the library's [appendTo4]. *)
Definition Addr_String (ip : Addr) : string :=
  let '(a, b, c, d) := ip in
  let ret := "" in
  let ret := appendDecimal ret a in
  let ret := ret +:+ "." in
  let ret := appendDecimal ret b in
  let ret := ret +:+ "." in
  let ret := appendDecimal ret c in
  let ret := ret +:+ "." in
  appendDecimal ret d.

End netip.

Module layers.

(** The fields of gopacket's [layers.ARP] that the package reads:
    [HwAddressSize] and [ProtAddressSize] are [uint8], [Operation] is
    [uint16], the four addresses are byte slices. *)
Record ARP : Type := mkARP {
  HwAddressSize : N;
  ProtAddressSize : N;
  Operation : N;
  SourceHwAddress : list byte;
  SourceProtAddress : list byte;
  DstHwAddress : list byte;
  DstProtAddress : list byte
}.

Definition ARPRequest : N := 1.
Definition ARPReply : N := 2.

End layers.

Import layers.

(** [fmt]'s [%d] verb on an unsigned integer. *)
Definition fmt_d (n : N) : string := pretty n.

(** ** Package [arp] *)

Definition Print2Log : Z := 1.
Definition Print2Console : Z := 2.

Definition LogAllPackets : Z := 1.
Definition LogNewPairs : Z := 2.

Definition logWarningPrefix : string := "[WARNING] ".
Definition logChangeMappingPrefix : string := "[CHANGE MAPPING] ".
Definition logNewMappingPrefix : string := "[NEW MAPPING] ".

(** [type ipv4 [4]byte] *)
Abbreviation ipv4 := (byte * byte * byte * byte)%type.

(** The conversion [ipv4(s)] of a slice to the array type: the first four
    bytes of [s]; it panics when [s] has fewer than four. *)
Definition ipv4_of_slice (s : list byte) : option ipv4 :=
  match s with
  | a :: b :: c :: d :: _ => Some (a, b, c, d)
  | _ => None
  end.

Inductive Writer : Type :=
  | FileWriter (filename : string)
  | Stdout.

(** [log.New(io.MultiWriter(writers...), "", log.LstdFlags)] and the lines
    written through it, oldest first. *)
Record log_Logger : Type := mklog {
  writers : list Writer;
  lines : list string
}.

Record Logger : Type := mkLogger {
  logger : log_Logger;
  mode : Z;
  arptable : gmap ipv4 (list byte)
}.

(** [l.logger.Printf] and [l.logger.Println] with the text already
    formatted: one more line. *)
Definition Printf (line : string) (l : Logger) : Logger :=
  {| logger := {| writers := writers (logger l); lines := (lines (logger l) ++ [line])%list |};
     mode := mode l;
     arptable := arptable l |}.

Definition Println (line : string) (l : Logger) : Logger := Printf line l.

Definition with_arptable (t : gmap ipv4 (list byte)) (l : Logger) : Logger :=
  {| logger := logger l; mode := mode l; arptable := t |}.

(** [m[k]] on a map of slices: the nil slice when [k] is absent. *)
Definition at_key (t : gmap ipv4 (list byte)) (k : ipv4) : list byte :=
  default [] (t !! k).

(** [l.mode&flag == flag] *)
Definition has_flag (m flag : Z) : bool := (Z.land m flag =? flag)%Z.

Definition prettyPrint (layer : ARP) : option string :=
  let sb := "" in
  let op :=
    if (Operation layer =? ARPRequest)%N then "Request"
    else if (Operation layer =? ARPReply)%N then "Reply"
    else "" in
  let sb := sb +:+ ("Operation: " +:+ op) in
  let sb := sb +:+ (", Source MAC: " +:+ net.HardwareAddr_String (SourceHwAddress layer)) in
  src ← ipv4_of_slice (SourceProtAddress layer);
  let sb := sb +:+ (", Source IP: " +:+ netip.Addr_String (netip.AddrFrom4 src)) in
  let sb := sb +:+ (", Destination MAC: " +:+ net.HardwareAddr_String (DstHwAddress layer)) in
  dst ← ipv4_of_slice (DstProtAddress layer);
  let sb := sb +:+ (", Destination IP: " +:+ netip.Addr_String (netip.AddrFrom4 dst)) in
  Some sb.

(** The text of a [CHANGE MAPPING] line and of a [NEW MAPPING] line. *)
Definition change_line (ip1 : netip.Addr) (hw1 : list byte)
    (ip2 : netip.Addr) (hw2 : list byte) : string :=
  logChangeMappingPrefix +:+ "Previous mapping: "
    +:+ netip.Addr_String ip1 +:+ " <-> " +:+ net.HardwareAddr_String hw1
    +:+ ", new mapping: "
    +:+ netip.Addr_String ip2 +:+ " <-> " +:+ net.HardwareAddr_String hw2.

Definition new_line (ip : netip.Addr) (hw : list byte) : string :=
  logNewMappingPrefix
    +:+ netip.Addr_String ip +:+ " <-> " +:+ net.HardwareAddr_String hw.

(** The loop of the branch where the sender IP is already in the table:
    the first visited entry that holds [hwaddr] is deleted, and the loop
    stops there. *)
Fixpoint range_delete (hwaddr : list byte) (order : list (ipv4 * list byte))
    (t : gmap ipv4 (list byte)) : gmap ipv4 (list byte) :=
  match order with
  | [] => t
  | (k, v) :: rest =>
      if slices.Equal hwaddr v then delete k t
      else range_delete hwaddr rest t
  end.

(** The loop of the branch where the sender IP is not in the table; it
    returns the last value of [found] with the logger. *)
Fixpoint range_migrate (ipaddr : ipv4) (hwaddr : list byte)
    (order : list (ipv4 * list byte)) (found : bool) (l : Logger) : bool * Logger :=
  match order with
  | [] => (found, l)
  | (k, v) :: rest =>
      let found := slices.Equal hwaddr v in
      if found then
        let l :=
          if has_flag (mode l) LogNewPairs
          then Printf (change_line (netip.AddrFrom4 k) hwaddr
                         (netip.AddrFrom4 ipaddr) hwaddr) l
          else l in
        let l := with_arptable (delete k (arptable l)) l in
        let l := with_arptable (<[ipaddr := hwaddr]> (arptable l)) l in
        (found, l)
      else range_migrate ipaddr hwaddr rest found l
  end.

(** [Logger.Log], with [order] the order in which [range] visits the table. *)
Definition Log (order : list (ipv4 * list byte)) (layer : ARP) (l : Logger) : option Logger :=
  if negb (HwAddressSize layer =? 6)%N then
    Some (Printf (logWarningPrefix +:+ "Packet MAC address size is not correct: "
                    +:+ fmt_d (HwAddressSize layer) +:+ ", but should be 6 bytes") l)
  else if negb (ProtAddressSize layer =? 4)%N then
    Some (Printf (logWarningPrefix +:+ "Packet IPv4 address size is not correct: "
                    +:+ fmt_d (ProtAddressSize layer) +:+ ", but should be 4 bytes") l)
  else
    l ← (if has_flag (mode l) LogAllPackets
         then line ← prettyPrint layer; Some (Println line l)
         else Some l);
    ipaddr ← ipv4_of_slice (SourceProtAddress layer);
    let hwaddr := SourceHwAddress layer in
    match arptable l !! ipaddr with
    | Some addr =>
        if slices.Equal hwaddr addr then Some l
        else
          let l := with_arptable (range_delete hwaddr order (arptable l)) l in
          let naddr := netip.AddrFrom4 ipaddr in
          let l :=
            if has_flag (mode l) LogNewPairs
            then Printf (change_line naddr (at_key (arptable l) ipaddr) naddr hwaddr) l
            else l in
          Some (with_arptable (<[ipaddr := hwaddr]> (arptable l)) l)
    | None =>
        let '(found, l) := range_migrate ipaddr hwaddr order false l in
        if negb found then
          let l :=
            if has_flag (mode l) LogNewPairs
            then Printf (new_line (netip.AddrFrom4 ipaddr) hwaddr) l
            else l in
          Some (with_arptable (<[ipaddr := hwaddr]> (arptable l)) l)
        else Some l
    end.

(** ** Construction *)

(** The two errors [NewLogger] can return: the one it makes with
    [errors.New], and the [*PathError] of a failed [os.OpenFile]. *)
Inductive error : Type :=
  | errorString (text : string)
  | PathError (op path : string) (errno : N).

Section Construction.

(** The file system, and [os.OpenFile(filename, O_CREATE|O_RDWR, 0666)]
    on it: the file system after the call and the error number of a
    failure. *)
Variable World : Type.
Variable OpenFile : string -> World -> World * option N.

Definition NewLogger (dest mode : Z) (filename : string) (w : World)
    : World * (option Logger * option error) :=
  if (dest =? 0)%Z || (mode =? 0)%Z then
    (w, (None, Some (errorString "dest and mode arguments should be specified")))
  else
    let writers : list Writer := [] in
    let '(w, opened) :=
      if has_flag dest Print2Log then
        let '(w, err) := OpenFile filename w in
        match err with
        | Some errno => (w, inl (PathError "open" filename errno))
        | None => (w, inr (writers ++ [FileWriter filename])%list)
        end
      else (w, inr writers) in
    match opened with
    | inl err => (w, (None, Some err))
    | inr writers =>
        let writers :=
          if has_flag dest Print2Console then (writers ++ [Stdout])%list else writers in
        let logger := {| writers := writers; lines := [] |} in
        (w, (Some {| logger := logger; mode := mode; arptable := ∅ |}, None))
    end.

End Construction.

(** ** Vocabulary of the properties *)

(** What the validation of [Log] accepts: the declared sizes. *)
Definition valid (layer : ARP) : Prop :=
  HwAddressSize layer = 6%N ∧ ProtAddressSize layer = 4%N.

(** Every address field has the length its size field declares, as in a
    layer decoded by gopacket from a packet. *)
Definition well_sized (layer : ARP) : Prop :=
  length (SourceHwAddress layer) = N.to_nat (HwAddressSize layer) ∧
  length (SourceProtAddress layer) = N.to_nat (ProtAddressSize layer) ∧
  length (DstHwAddress layer) = N.to_nat (HwAddressSize layer) ∧
  length (DstProtAddress layer) = N.to_nat (ProtAddressSize layer).

(** [order] is one of the orders in which [range] may visit [t]. *)
Definition enumerates (order : list (ipv4 * list byte)) (t : gmap ipv4 (list byte)) : Prop :=
  order ≡ₚ map_to_list t.

(** No two different IP keys hold the same hardware address. *)
Definition no_conflict (t : gmap ipv4 (list byte)) : Prop :=
  ∀ k1 k2 hw, t !! k1 = Some hw → t !! k2 = Some hw → k1 = k2.

(** The logger [l] after it has written the lines [out] and its table has
    become [t]. *)
Definition after (l : Logger) (out : list string) (t : gmap ipv4 (list byte)) : Logger :=
  {| logger := {| writers := writers (logger l); lines := (lines (logger l) ++ out)%list |};
     mode := mode l;
     arptable := t |}.

(** The lines written between [l] and a later state [l']. *)
Definition emitted (l l' : Logger) : list string :=
  drop (length (lines (logger l))) (lines (logger l')).

(** A line carries a tag when it starts with it. *)
Definition tagged (tag line : string) : bool := String.prefix tag line.

(** Classification lines are the [NEW MAPPING] and [CHANGE MAPPING] ones;
    a raw-dump line carries no tag at all. *)
Definition classification (line : string) : bool :=
  tagged logNewMappingPrefix line || tagged logChangeMappingPrefix line.

Definition raw_dump (line : string) : bool :=
  negb (tagged logWarningPrefix line) && negb (classification line).

(** The raw-dump line of a call, if [mode] asks for one, and the event line
    of a call, if [mode] asks for it. *)
Definition dump_of (m : Z) (layer : ARP) : list string :=
  if has_flag m LogAllPackets
  then match prettyPrint layer with Some line => [line] | None => [] end
  else [].

Definition event_of (m : Z) (line : string) : list string :=
  if has_flag m LogNewPairs then [line] else [].

(** The key of the first visited entry that holds [hw]: where both loops of
    [Log] stop. *)
Fixpoint first_holder (hw : list byte) (order : list (ipv4 * list byte)) : option ipv4 :=
  match order with
  | [] => None
  | (k, v) :: rest => if slices.Equal hw v then Some k else first_holder hw rest
  end.

(** The states [Log] can lead to from a logger with an empty table, for any
    announcements, valid or not, and any order of the visits. *)
Inductive reachable : Logger → Prop :=
  | reachable_new (lg : log_Logger) (m : Z) :
      reachable {| logger := lg; mode := m; arptable := ∅ |}
  | reachable_Log (l l' : Logger) (order : list (ipv4 * list byte)) (layer : ARP) :
      reachable l →
      enumerates order (arptable l) →
      Log order layer l = Some l' →
      reachable l'.

(** The two renderings in the words of the spec: colon-hex, two lower-case
    hexadecimal digits per byte, and dotted decimal. *)
Definition hex_digit (n : N) : ascii :=
  if (n <? 10)%N then ascii_of_N (48 + n) else ascii_of_N (87 + n).

Definition hex2 (b : byte) : string :=
  String (hex_digit (Byte.to_N b / 16)) (String (hex_digit (Byte.to_N b mod 16)) "").

Definition colon_hex (a : list byte) : string := String.concat ":" (map hex2 a).

Definition dotted_decimal (ip : ipv4) : string :=
  let '(a, b, c, d) := ip in
  String.concat "." (map (λ x : byte, pretty (Byte.to_N x)) [a; b; c; d]).

(** The raw dump of [layer], when [m] asks for it, can be rendered. *)
Definition dumpable (m : Z) (layer : ARP) : Prop :=
  has_flag m LogAllPackets = true → is_Some (prettyPrint layer).

(** The text of the warning for a layer that the validation rejects. *)
Definition warning_line (layer : ARP) : string :=
  if negb (HwAddressSize layer =? 6)%N then
    logWarningPrefix +:+ "Packet MAC address size is not correct: "
      +:+ fmt_d (HwAddressSize layer) +:+ ", but should be 6 bytes"
  else
    logWarningPrefix +:+ "Packet IPv4 address size is not correct: "
      +:+ fmt_d (ProtAddressSize layer) +:+ ", but should be 4 bytes".

(** The announcement [(ip, hw)]: a layer that passes the validation, has
    fields of the declared sizes, and whose sender addresses are [ip] and
    [hw]. *)
Definition announces (layer : ARP) (ip : ipv4) (hw : list byte) : Prop :=
  valid layer ∧ well_sized layer ∧
  ipv4_of_slice (SourceProtAddress layer) = Some ip ∧
  SourceHwAddress layer = hw.

(** Sample data: two hosts, two interface cards, and the ARP request that a
    host [ip] with the card [hw] broadcasts for 192.168.0.254. *)
Definition ex_A : ipv4 := (xc0, xa8, x00, x01).
Definition ex_B : ipv4 := (xc0, xa8, x00, x02).
Definition ex_M1 : list byte := [x00; x1a; x2b; x3c; x4d; x5e].
Definition ex_M2 : list byte := [xaa; xbb; xcc; xdd; xee; xff].

Definition ex_layer (ip : ipv4) (hw : list byte) : ARP :=
  let '(a, b, c, d) := ip in
  {| HwAddressSize := 6; ProtAddressSize := 4; Operation := ARPRequest;
     SourceHwAddress := hw; SourceProtAddress := [a; b; c; d];
     DstHwAddress := [x00; x00; x00; x00; x00; x00];
     DstProtAddress := [xc0; xa8; x00; xfe] |}.

Definition ex_logger (m : Z) (t : gmap ipv4 (list byte)) : Logger :=
  {| logger := {| writers := [Stdout]; lines := [] |}; mode := m; arptable := t |}.

(** The logger that has seen the announcement [(ex_A, ex_M1)] and nothing
    else, in report-changes mode. *)
Definition ex_state : Logger :=
  after (ex_logger LogNewPairs ∅) [new_line (netip.AddrFrom4 ex_A) ex_M1] {[ex_A := ex_M1]}.

(** The error [NewLogger] makes for a missing destination or mode. *)
Definition config_error : error :=
  errorString "dest and mode arguments should be specified".

(** The name [prettyPrint] gives to an operation code. *)
Definition operation_name (op : N) : string :=
  if (op =? ARPRequest)%N then "Request"
  else if (op =? ARPReply)%N then "Reply"
  else "".

(** A layer that passes the validation with a sender protocol address of
    three bytes only. *)
Definition ex_short : ARP :=
  {| HwAddressSize := 6; ProtAddressSize := 4; Operation := ARPReply;
     SourceHwAddress := ex_M1; SourceProtAddress := [xc0; xa8; x00];
     DstHwAddress := ex_M2; DstProtAddress := [xc0; xa8; x00; x02] |}.

(** The table update in the words of the spec (classification, steps 2 to
    4): [findByHwAddr] is the scan of the entries, here in the order
    [order]; a repeated binding changes nothing; a known IP with a new
    hardware address loses the other entry that holds the address, if any,
    and is rebound; an unknown IP is bound, after the entry that holds the
    address, if any, has been removed. *)
Definition findByHwAddr (hw : list byte) (order : list (ipv4 * list byte)) : option ipv4 :=
  fst <$> List.find (λ e : ipv4 * list byte, bool_decide (e.2 = hw)) order.

Definition update_per_spec (order : list (ipv4 * list byte)) (ip : ipv4) (hw : list byte)
    (t : gmap ipv4 (list byte)) : gmap ipv4 (list byte) :=
  match t !! ip with
  | Some hw' =>
      if decide (hw' = hw) then t
      else
        let t :=
          match findByHwAddr hw order with
          | Some ip2 => if decide (ip2 = ip) then t else delete ip2 t
          | None => t
          end in
        <[ip := hw]> t
  | None =>
      match findByHwAddr hw order with
      | Some ip2 => <[ip := hw]> (delete ip2 t)
      | None => <[ip := hw]> t
      end
  end.

(** ** [Logger.Close] *)

(** The dynamic type of an [io.Writer] value, as far as the type assertion
    of [Close] tells: an [*os.File], or the writer that [io.MultiWriter]
    returns. *)
Inductive io_Writer : Type :=
  | os_File (filename : string)
  | io_multiWriter (ws : list Writer).

(** [log.Logger.Writer]: the destination given to [log.New], which
    [NewLogger] makes with [io.MultiWriter]. *)
Definition log_Writer (lg : log_Logger) : io_Writer := io_multiWriter (writers lg).

Section Closing.

(** The methods [Sync] and [Close] of an [*os.File] on the file system:
    the file system after the call and the error number of a failure. *)
Variable World : Type.
Variable File_Sync : string -> World -> World * option N.
Variable File_Close : string -> World -> World * option N.

Definition Close (l : Logger) (w : World) : World * option error :=
  match log_Writer (logger l) with
  | os_File logFile =>
      let '(w, err) := File_Sync logFile w in
      match err with
      | Some errno => (w, Some (PathError "sync" logFile errno))
      | None =>
          let '(w, err) := File_Close logFile w in
          match err with
          | Some errno => (w, Some (PathError "close" logFile errno))
          | None => (w, None)
          end
      end
  | io_multiWriter _ => (w, None)
  end.

End Closing.

(** ** Package [help] *)

Module help.

Definition quote : string := String (ascii_of_nat 34) "".

Definition Usage : string :=
  "
NAME
     ARPLogger - Log ARP protocol activity.

DESCRIPTION
     Intercept ARP packets on specified network interface and log all or only new mapping of IP <-> MAC.

     The following command line flags are available:

     -interface   Network interface to listen ARP packets.

     -log         Store all ARP activity to log file.

     -console     Print to console.

     -all         Dump all ARP packets.

     -new         Dump only new mapping of IP <-> MAC.

EXAMPLES

    Listen on network interface " +:+ quote +:+
  "en0" +:+ quote +:+
  " and print to console only new pairs of IP <-> MAC:

    arplogger -interface en0 -console -new 

    Listen on network interface " +:+ quote +:+
  "en0" +:+ quote +:+
  " and print to console and save to log file, only new pairs of IP <-> MAC:

    arplogger -interface en0 -console -log -new

    Listen on network interface " +:+ quote +:+
  "en0" +:+ quote +:+
  " and print to console all incoming ARP packets:

    arplogger -interface en0 -console -log -all

    Listen on network interface " +:+ quote +:+
  "en0" +:+ quote +:+
  " and print to console and log file all incoming ARP packets.
    Additionally, display new mapping of IP <-> MAC:

    arplogger -interface en0 -console -log -all -new

".

End help.

(** ** Package [main] *)

(** The command line after [flag.Parse]: the value of each flag, and
    [flag.NFlag], the number of flags that were set. *)
Record Flags : Type := mkFlags {
  flagPrint2Log : bool;
  flagPrint2Console : bool;
  flagLogAll : bool;
  flagLogNewPair : bool;
  flagIntf : string;
  NFlag : nat
}.

(** The newline that [fmt.Println] adds. *)
Definition newline : string := String (ascii_of_nat 10) "".

(** [parseFlags], with the texts it writes to the standard output. *)
Definition parseFlags (f : Flags) : bool * list string :=
  if (NFlag f =? 0)%nat then (false, [help.Usage])
  else if negb (flagPrint2Console f) && negb (flagPrint2Log f) then
    (false, ["No output is defined. Please, specify -console and/or -log." +:+ newline])
  else if negb (flagLogAll f) && negb (flagLogNewPair f) then
    (false, ["No logging mode is defined. Please, specify -all and/or -new" +:+ newline])
  else if (String.length (flagIntf f) =? 0)%nat then
    (false, [("No network interface is specified. "
                +:+ "Please, use -interface to specify source interface to read network packets.")
               +:+ newline])
  else (true, []).

Definition getMode (f : Flags) : Z :=
  let mode := 0%Z in
  let mode := if flagLogAll f then Z.lor mode LogAllPackets else mode in
  let mode := if flagLogNewPair f then Z.lor mode LogNewPairs else mode in
  mode.

Definition getDest (f : Flags) : Z :=
  let dest := 0%Z in
  let dest := if flagPrint2Console f then Z.lor dest Print2Console else dest in
  let dest := if flagPrint2Log f then Z.lor dest Print2Log else dest in
  dest.

Section LogFile.

(** What [genFilename] asks of the system: [runtime.GOOS]; the home
    directory of [user.Current], or nothing when that call fails and
    returns a nil user; [os.TempDir]; [filepath.Join]; [os.MkdirAll], with
    the file system after the call and the error of a failure; the current
    time in the layout of the file name; and the text of an error number. *)
Variable World : Type.
Variable GOOS : string.
Variable user_Current : World -> option string.
Variable os_TempDir : World -> string.
Variable filepath_Join : list string -> string.
Variable os_MkdirAll : string -> N -> World -> World * option error.
Variable time_Now_Format : World -> string.
Variable strerror : N -> string.

(** [os.ModePerm] *)
Definition os_ModePerm : N := 511.

(** [err.Error()] *)
Definition error_Error (e : error) : string :=
  match e with
  | errorString text => text
  | PathError op path errno => op +:+ " " +:+ path +:+ ": " +:+ strerror errno
  end.

(** [genFilename]; the result is [None] when it panics, on the nil user. *)
Definition genFilename (w : World) : option (World * (string * option error)) :=
  root ← (if String.eqb GOOS "darwin" then
            HomeDir ← user_Current w;
            Some (filepath_Join [HomeDir; "Library"; "Logs"])
          else if String.eqb GOOS "linux" then Some "/var/log"
          else Some (os_TempDir w));
  let logpath := filepath_Join [root; "arplogger"] in
  let '(w, err) := os_MkdirAll logpath os_ModePerm w in
  match err with
  | Some err => Some (w, ("", Some err))
  | None =>
      let logFileName := "arplogger" +:+ "_" +:+ time_Now_Format w +:+ ".log" in
      Some (w, (filepath_Join [logpath; logFileName], None))
  end.

(** [getLogFilename]: the file name, the new value of [*dest] and the text
    written to the standard output. *)
Definition getLogFilename (dest : Z) (w : World)
    : option (World * (string * Z * list string)) :=
  let filename := "" in
  if has_flag dest Print2Log then
    r ← genFilename w;
    let '(w, (filename, err)) := r in
    match err with
    | Some err =>
        Some (w, (filename, Z.lor dest Print2Console,
                  ["Can't create log file due to error " +:+ error_Error err
                     +:+ ". Default printing to console."]))
    | None => Some (w, (filename, dest, []))
    end
  else Some (w, (filename, dest, [])).

End LogFile.

(** What one turn of the [select] of [processPackets] gets: the context is
    done; a packet from the channel, with its ARP layer if it has one and
    the order in which [Log] would visit the table; or the nil packet of a
    closed channel. *)
Inductive selected : Type :=
  | ctx_Done
  | received (layer : option ARP) (order : list (ipv4 * list byte))
  | received_nil.

(** How [processPackets] ends on a finite run of turns: it returns, it is
    left waiting in the [select], or it panics. *)
Inductive outcome : Type :=
  | Returned (l : Logger)
  | Waiting (l : Logger)
  | Panicked.

Fixpoint processPackets (turns : list selected) (logger : Logger) : outcome :=
  match turns with
  | [] => Waiting logger
  | ctx_Done :: _ => Returned logger
  | received None _ :: rest => processPackets rest logger
  | received (Some layer) order :: rest =>
      match Log order layer logger with
      | Some logger => processPackets rest logger
      | None => Panicked
      end
  | received_nil :: _ => Panicked
  end.

(** Every order of a run is an order in which [range] may visit the table
    at that turn. *)
Fixpoint visits_ok (turns : list selected) (l : Logger) : Prop :=
  match turns with
  | received None _ :: rest => visits_ok rest l
  | received (Some layer) order :: rest =>
      enumerates order (arptable l) ∧
      match Log order layer l with
      | Some l' => visits_ok rest l'
      | None => True
      end
  | _ => True
  end.

(** The turns that can change the table: all but the packets without an ARP
    layer and the layers that the validation rejects. *)
Definition relevant (turn : selected) : bool :=
  match turn with
  | received None _ => false
  | received (Some layer) _ =>
      (HwAddressSize layer =? 6)%N && (ProtAddressSize layer =? 4)%N
  | _ => true
  end.

(** Two outcomes of the same kind with the same table and mode. *)
Definition same_bindings (o1 o2 : outcome) : Prop :=
  match o1, o2 with
  | Returned l1, Returned l2 | Waiting l1, Waiting l2 =>
      arptable l1 = arptable l2 ∧ mode l1 = mode l2
  | Panicked, Panicked => True
  | _, _ => False
  end.

(** The logger that has then seen [(ex_B, ex_M2)] too. *)
Definition ex_table2 : gmap ipv4 (list byte) := <[ex_B := ex_M2]> {[ex_A := ex_M1]}.

Definition ex_state2 : Logger :=
  after ex_state [new_line (netip.AddrFrom4 ex_B) ex_M2] ex_table2.

(** The number of [NEW MAPPING] lines a logger has written. *)
Definition new_lines (l : Logger) : nat :=
  length (List.filter (tagged logNewMappingPrefix) (lines (logger l))).

(** ** The library functions *)

Lemma slices_Equal_true (s1 s2 : list byte) : slices.Equal s1 s2 = true ↔ s1 = s2.
Proof.
  revert s2; induction s1 as [|a s1 IH]; intros [|b s2]; simpl; try (split; congruence).
  rewrite andb_true_iff, IH. split.
  - intros [Hab ->]. apply Byte.byte_dec_bl in Hab. by subst.
  - intros [= -> ->]. split; [by apply Byte.byte_dec_lb | done].
Qed.

Lemma slices_Equal_refl (s : list byte) : slices.Equal s s = true.
Proof. by apply slices_Equal_true. Qed.

Lemma slices_Equal_false (s1 s2 : list byte) : slices.Equal s1 s2 = false ↔ s1 ≠ s2.
Proof.
  rewrite <- slices_Equal_true. destruct (slices.Equal s1 s2); split; congruence.
Qed.

(** ** The two loops over the table *)

Lemma enumerates_lookup order t k v :
  enumerates order t → (k, v) ∈ order ↔ t !! k = Some v.
Proof. unfold enumerates. intros ->. apply elem_of_map_to_list. Qed.

Lemma first_holder_Some hw order k :
  first_holder hw order = Some k → (k, hw) ∈ order.
Proof.
  induction order as [|[k' v] rest IH]; simpl; [done|].
  destruct (slices.Equal hw v) eqn:E.
  - apply slices_Equal_true in E as ->. intros [= ->]. apply elem_of_cons; by left.
  - intros H. apply elem_of_cons; right; auto.
Qed.

Lemma first_holder_None hw order k :
  first_holder hw order = None → (k, hw) ∉ order.
Proof.
  induction order as [|[k' v] rest IH]; simpl.
  - intros _. apply not_elem_of_nil.
  - destruct (slices.Equal hw v) eqn:E; [done|].
    apply slices_Equal_false in E. intros H [Heq|Hin]%elem_of_cons.
    + congruence.
    + by apply IH.
Qed.

Lemma first_holder_held order t hw k :
  enumerates order t → first_holder hw order = Some k → t !! k = Some hw.
Proof. intros He Hf. apply (enumerates_lookup _ _ _ _ He), first_holder_Some, Hf. Qed.

Lemma first_holder_free order t hw :
  enumerates order t → first_holder hw order = None → ∀ k, t !! k ≠ Some hw.
Proof.
  intros He Hf k Hk. apply (first_holder_None _ _ k Hf).
  by apply (enumerates_lookup _ _ _ _ He).
Qed.

Lemma first_holder_unique order t hw k :
  enumerates order t → no_conflict t → t !! k = Some hw →
  first_holder hw order = Some k.
Proof.
  intros He Hn Hk. destruct (first_holder hw order) as [k'|] eqn:Hf.
  - f_equal. eapply Hn; [|exact Hk]. by eapply first_holder_held.
  - by destruct (first_holder_free _ _ _ He Hf k).
Qed.

Lemma range_delete_first hw order t :
  range_delete hw order t =
  match first_holder hw order with Some k => delete k t | None => t end.
Proof.
  induction order as [|[k v] rest IH]; simpl; [done|].
  by destruct (slices.Equal hw v).
Qed.

Lemma range_migrate_first ipaddr hwaddr order l :
  range_migrate ipaddr hwaddr order false l =
  match first_holder hwaddr order with
  | Some k =>
      (true, after l (event_of (mode l)
                        (change_line (netip.AddrFrom4 k) hwaddr (netip.AddrFrom4 ipaddr) hwaddr))
               (<[ipaddr := hwaddr]> (delete k (arptable l))))
  | None => (false, l)
  end.
Proof.
  induction order as [|[k v] rest IH]; simpl; [done|].
  destruct (slices.Equal hwaddr v) eqn:E; [|apply IH].
  unfold event_of, after. destruct l as [[ws ls] m t]; simpl.
  destruct (has_flag m LogNewPairs); simpl; [done|]. by rewrite app_nil_r.
Qed.

Lemma after_nil l : after l [] (arptable l) = l.
Proof. destruct l as [[ws ls] m t]. unfold after; simpl. by rewrite app_nil_r. Qed.

Lemma after_after l out1 t1 out2 t2 :
  after (after l out1 t1) out2 t2 = after l (out1 ++ out2) t2.
Proof. unfold after; simpl. by rewrite app_assoc. Qed.

Lemma emitted_after l out t : emitted l (after l out t) = out.
Proof. unfold emitted, after; simpl. by rewrite drop_app_length. Qed.

(** ** One call of [Log] *)

Lemma ipv4_of_slice_Some (s : list byte) :
  4 ≤ length s → is_Some (ipv4_of_slice s).
Proof. destruct s as [|a [|b [|c [|d s]]]]; simpl; try lia. eauto. Qed.

Lemma ipv4_of_slice_None (s : list byte) :
  length s < 4 → ipv4_of_slice s = None.
Proof. destruct s as [|a [|b [|c [|d s]]]]; simpl; try lia; done. Qed.

Lemma prettyPrint_is_Some layer :
  is_Some (prettyPrint layer) ↔
  4 ≤ length (SourceProtAddress layer) ∧ 4 ≤ length (DstProtAddress layer).
Proof.
  unfold prettyPrint.
  destruct (decide (4 ≤ length (SourceProtAddress layer))) as [Hs|Hs];
    [destruct (ipv4_of_slice_Some _ Hs) as [src ->]
    |rewrite (ipv4_of_slice_None (SourceProtAddress layer)) by lia];
    simpl; [|split; [by intros [? [=]]|intros [? ?]; lia]].
  destruct (decide (4 ≤ length (DstProtAddress layer))) as [Hd|Hd];
    [destruct (ipv4_of_slice_Some _ Hd) as [dst ->]
    |rewrite (ipv4_of_slice_None (DstProtAddress layer)) by lia];
    simpl; [|split; [by intros [? [=]]|intros [? ?]; lia]].
  split; eauto.
Qed.

Lemma well_sized_dumpable layer m :
  valid layer → well_sized layer → dumpable m layer.
Proof.
  intros [Hh Hp] (_ & Hs & _ & Hd) _. apply prettyPrint_is_Some.
  rewrite Hs, Hd, Hp. simpl. lia.
Qed.

Lemma well_sized_sender layer :
  valid layer → well_sized layer → is_Some (ipv4_of_slice (SourceProtAddress layer)).
Proof.
  intros [Hh Hp] (_ & Hs & _ & Hd). apply ipv4_of_slice_Some. rewrite Hs, Hp. simpl. lia.
Qed.

Lemma Log_valid order layer l ip :
  valid layer → dumpable (mode l) layer →
  ipv4_of_slice (SourceProtAddress layer) = Some ip →
  Log order layer l =
    let l1 := after l (dump_of (mode l) layer) (arptable l) in
    let hw := SourceHwAddress layer in
    let naddr := netip.AddrFrom4 ip in
    match arptable l !! ip with
    | Some addr =>
        if slices.Equal hw addr then Some l1
        else
          let t := range_delete hw order (arptable l) in
          Some (after l1 (event_of (mode l) (change_line naddr (at_key t ip) naddr hw))
                  (<[ip := hw]> t))
    | None =>
        match first_holder hw order with
        | Some k =>
            Some (after l1 (event_of (mode l)
                              (change_line (netip.AddrFrom4 k) hw naddr hw))
                    (<[ip := hw]> (delete k (arptable l))))
        | None =>
            Some (after l1 (event_of (mode l) (new_line naddr hw))
                    (<[ip := hw]> (arptable l)))
        end
    end.
Proof.
  intros [Hh Hp] Hd Hip. unfold Log. rewrite Hh, Hp. simpl negb. cbv iota.
  assert (Hl1 : (if has_flag (mode l) LogAllPackets
                 then line ← prettyPrint layer; Some (Println line l)
                 else Some l) = Some (after l (dump_of (mode l) layer) (arptable l))).
  { unfold dump_of, dumpable in *. destruct (has_flag (mode l) LogAllPackets).
    - destruct Hd as [line ->]; [done|]. reflexivity.
    - by rewrite after_nil. }
  rewrite Hl1, Hip. cbv beta iota zeta delta [mbind option_bind].
  change (arptable (after l (dump_of (mode l) layer) (arptable l))) with (arptable l).
  destruct (arptable l !! ip) as [addr|] eqn:Hlk.
  - destruct (slices.Equal (SourceHwAddress layer) addr); [done|].
    f_equal. unfold event_of. simpl. destruct (has_flag (mode l) LogNewPairs); simpl.
    + unfold after, with_arptable, Printf; simpl. by rewrite <- app_assoc.
    + unfold after, with_arptable; simpl. by rewrite app_nil_r.
  - rewrite range_migrate_first.
    destruct (first_holder (SourceHwAddress layer) order) as [k|]; simpl.
    + by rewrite after_after.
    + f_equal. unfold event_of. destruct (has_flag (mode l) LogNewPairs); simpl.
      * unfold after, with_arptable, Printf; simpl. by rewrite <- app_assoc.
      * unfold after, with_arptable; simpl. by rewrite app_nil_r.
Qed.

Lemma valid_dec layer : {valid layer} + {¬ valid layer}.
Proof. unfold valid. apply and_dec; apply N.eq_dec. Defined.

Lemma Log_invalid order layer l :
  ¬ valid layer → Log order layer l = Some (after l [warning_line layer] (arptable l)).
Proof.
  intros Hnv. unfold Log, warning_line, valid in *.
  destruct (N.eqb_spec (HwAddressSize layer) 6) as [Hh|Hh]; simpl; [|done].
  destruct (N.eqb_spec (ProtAddressSize layer) 4) as [Hp|Hp]; simpl; [|done].
  by destruct Hnv.
Qed.

Lemma Log_None_iff order layer l :
  Log order layer l = None ↔
  valid layer ∧
  (length (SourceProtAddress layer) < 4 ∨
   has_flag (mode l) LogAllPackets = true ∧ length (DstProtAddress layer) < 4).
Proof.
  destruct (valid_dec layer) as [Hv|Hnv];
    [|rewrite Log_invalid by done; split; [done|by intros [? _]]].
  destruct (decide (4 ≤ length (SourceProtAddress layer))) as [Hs|Hs].
  - destruct (ipv4_of_slice_Some _ Hs) as [ip Hip].
    destruct (decide (has_flag (mode l) LogAllPackets = true
                      ∧ length (DstProtAddress layer) < 4)) as [[Hf Hd]|Hd].
    + split; [by auto|intros _].
      unfold Log. destruct Hv as [-> ->]. simpl. rewrite Hf.
      assert (prettyPrint layer = None) as ->; [|done].
      destruct (prettyPrint layer) eqn:E; [|done].
      assert (is_Some (prettyPrint layer)) as Hp by eauto.
      apply prettyPrint_is_Some in Hp. lia.
    + assert (dumpable (mode l) layer) as Hdump.
      { intros Hf. apply prettyPrint_is_Some. split; [done|].
        destruct (decide (4 ≤ length (DstProtAddress layer))); [done|].
        destruct Hd. split; [done|lia]. }
      rewrite (Log_valid _ _ _ _ Hv Hdump Hip). cbv zeta.
      split; [|intros (_ & [?|?]); [lia|done]].
      destruct (arptable l !! ip);
        [destruct (slices.Equal _ _)|destruct (first_holder _ _)]; done.
  - split; [intros _; split; [done|left; lia]|intros _].
    unfold Log. destruct Hv as [-> ->]. simpl.
    rewrite (ipv4_of_slice_None (SourceProtAddress layer)) by lia.
    destruct (has_flag (mode l) LogAllPackets); [|done].
    by destruct (prettyPrint layer).
Qed.

Lemma Log_Some_valid order layer l l' :
  valid layer → Log order layer l = Some l' →
  dumpable (mode l) layer ∧ is_Some (ipv4_of_slice (SourceProtAddress layer)).
Proof.
  intros Hv HL.
  assert (Log order layer l ≠ None) as Hn by congruence.
  rewrite Log_None_iff in Hn.
  split.
  - intros Hf. apply prettyPrint_is_Some.
    split; destruct (decide (4 ≤ length (SourceProtAddress layer)));
      destruct (decide (4 ≤ length (DstProtAddress layer)));
      try done; destruct Hn; (split; [done|]); (left; lia) || (right; split; [done|lia]).
  - apply ipv4_of_slice_Some.
    destruct (decide (4 ≤ length (SourceProtAddress layer))); [done|].
    destruct Hn. split; [done|left; lia].
Qed.

(** ** The table invariant *)

Lemma no_conflict_empty : no_conflict ∅.
Proof. intros k1 k2 hw Hk. by rewrite lookup_empty in Hk. Qed.

Lemma no_conflict_insert t ip hw :
  (∀ k, k ≠ ip → t !! k ≠ Some hw) → no_conflict t → no_conflict (<[ip := hw]> t).
Proof.
  intros Hfree Hn k1 k2 v.
  destruct (decide (k1 = ip)) as [->|H1], (decide (k2 = ip)) as [->|H2];
    rewrite ?lookup_insert_eq, ?lookup_insert_ne by done; try done.
  - intros [= <-] H. by destruct (Hfree k2).
  - intros H [= <-]. by destruct (Hfree k1).
  - apply Hn.
Qed.

Lemma no_conflict_delete t k : no_conflict t → no_conflict (delete k t).
Proof.
  intros Hn k1 k2 hw H1 H2.
  apply lookup_delete_Some in H1 as [_ H1], H2 as [_ H2]. eauto.
Qed.

Lemma delete_holder_free t k hw :
  no_conflict t → t !! k = Some hw → ∀ k', delete k t !! k' ≠ Some hw.
Proof.
  intros Hn Hk k' [Hne Hk']%lookup_delete_Some. apply Hne. eauto.
Qed.

Lemma range_delete_free order t hw :
  enumerates order t → no_conflict t → ∀ k, range_delete hw order t !! k ≠ Some hw.
Proof.
  intros He Hn. rewrite range_delete_first.
  destruct (first_holder hw order) as [k|] eqn:Hf.
  - eapply delete_holder_free; [done|]. by eapply first_holder_held.
  - by eapply first_holder_free.
Qed.

Lemma range_delete_no_conflict order t hw :
  no_conflict t → no_conflict (range_delete hw order t).
Proof.
  intros Hn. rewrite range_delete_first.
  destruct (first_holder hw order); [by apply no_conflict_delete|done].
Qed.

Lemma Log_no_conflict order layer l l' :
  enumerates order (arptable l) → no_conflict (arptable l) →
  Log order layer l = Some l' → no_conflict (arptable l').
Proof.
  intros He Hn HL. destruct (valid_dec layer) as [Hv|Hnv];
    [|rewrite Log_invalid in HL by done; by injection HL as <-].
  destruct (Log_Some_valid _ _ _ _ Hv HL) as [Hd [ip Hip]].
  rewrite (Log_valid _ _ _ _ Hv Hd Hip) in HL. cbv zeta in HL.
  destruct (arptable l !! ip) as [addr|] eqn:Hlk.
  - destruct (slices.Equal _ _); injection HL as <-; simpl; [done|].
    apply no_conflict_insert.
    + intros k _. by apply range_delete_free.
    + by apply range_delete_no_conflict.
  - destruct (first_holder _ _) as [k|] eqn:Hf; injection HL as <-; simpl.
    + apply no_conflict_insert; [|by apply no_conflict_delete].
      intros k' _. eapply delete_holder_free; [done|]. by eapply first_holder_held.
    + apply no_conflict_insert; [|done].
      intros k _. by eapply first_holder_free.
Qed.

Lemma reachable_no_conflict l : reachable l → no_conflict (arptable l).
Proof.
  induction 1 as [lg m|l l' order layer _ IH He HL]; simpl.
  - apply no_conflict_empty.
  - by eapply Log_no_conflict.
Qed.

(** ** Strings and the two renderings *)

Lemma append_nil_l (s : string) : "" +:+ s = s.
Proof. reflexivity. Qed.

Lemma append_cons (c : ascii) (s1 s2 : string) :
  String c s1 +:+ s2 = String c (s1 +:+ s2).
Proof. reflexivity. Qed.

Lemma append_assoc (s1 s2 s3 : string) : (s1 +:+ s2) +:+ s3 = s1 +:+ (s2 +:+ s3).
Proof.
  induction s1 as [|c s1 IH]; [done|]. rewrite !append_cons. by rewrite IH.
Qed.

Lemma append_nil_r (s : string) : s +:+ "" = s.
Proof. induction s as [|c s IH]; [done|]. rewrite append_cons. by rewrite IH. Qed.

Lemma prefix_append (p s : string) : String.prefix p (p +:+ s) = true.
Proof.
  induction p as [|c p IH]; [by destruct s|].
  rewrite append_cons. simpl. by destruct (ascii_dec c c).
Qed.

Lemma hexDigit_pair (b : byte) :
  index net.hexDigit (N.shiftr (Byte.to_N b) 4)
    +:+ index net.hexDigit (N.land (Byte.to_N b) 15) = hex2 b.
Proof. destruct b; vm_compute; reflexivity. Qed.

Lemma String_loop_colon_hex (a : list byte) (i : nat) (buf : string) :
  net.String_loop i a buf =
  buf +:+ match a with
          | [] => ""
          | _ :: _ => (if (0 <? i)%nat then ":" else "") +:+ colon_hex a
          end.
Proof.
  revert i buf; induction a as [|b a IH]; intros i buf; simpl.
  - by rewrite append_nil_r.
  - rewrite IH. rewrite !append_assoc.
    assert (Hb : ∀ rest,
      index net.hexDigit (N.shiftr (Byte.to_N b) 4)
        +:+ index net.hexDigit (N.land (Byte.to_N b) 15) +:+ rest = hex2 b +:+ rest).
    { intros rest. by rewrite <- append_assoc, hexDigit_pair. }
    unfold colon_hex; simpl map; simpl String.concat.
    destruct (0 <? i)%nat; rewrite ?append_assoc; simpl ("" +:+ _);
      rewrite Hb; destruct a as [|b' a]; simpl; by rewrite ?append_nil_r.
Qed.

Lemma HardwareAddr_String_colon_hex (a : list byte) :
  net.HardwareAddr_String a = colon_hex a.
Proof.
  unfold net.HardwareAddr_String. destruct a as [|b a]; [done|].
  simpl (length _ =? 0)%nat. cbv iota. by rewrite String_loop_colon_hex.
Qed.

Lemma appendDecimal_pretty (x : byte) : netip.appendDecimal "" x = pretty (Byte.to_N x).
Proof. destruct x; vm_compute; reflexivity. Qed.

Lemma appendDecimal_append (buf : string) (x : byte) :
  netip.appendDecimal buf x = buf +:+ pretty (Byte.to_N x).
Proof.
  rewrite <- appendDecimal_pretty. unfold netip.appendDecimal.
  destruct (100 <=? Byte.to_N x)%N, (10 <=? Byte.to_N x)%N;
    simpl ("" +:+ _); by rewrite ?append_assoc.
Qed.

Lemma Addr_String_dotted_decimal (ip : ipv4) :
  netip.Addr_String (netip.AddrFrom4 ip) = dotted_decimal ip.
Proof.
  destruct ip as [[[a b] c] d]. unfold netip.Addr_String, netip.AddrFrom4, dotted_decimal.
  rewrite !appendDecimal_append. simpl. by rewrite !append_assoc.
Qed.

(** ** Tags *)

Lemma tagged_warning_line layer : tagged logWarningPrefix (warning_line layer) = true.
Proof. unfold warning_line. destruct (negb _); apply prefix_append. Qed.

Lemma tagged_change_line ip1 hw1 ip2 hw2 :
  tagged logChangeMappingPrefix (change_line ip1 hw1 ip2 hw2) = true.
Proof. apply prefix_append. Qed.

Lemma tagged_new_line ip hw : tagged logNewMappingPrefix (new_line ip hw) = true.
Proof. apply prefix_append. Qed.

Lemma change_line_not_new ip1 hw1 ip2 hw2 :
  tagged logNewMappingPrefix (change_line ip1 hw1 ip2 hw2) = false.
Proof. reflexivity. Qed.

Lemma change_line_not_warning ip1 hw1 ip2 hw2 :
  tagged logWarningPrefix (change_line ip1 hw1 ip2 hw2) = false.
Proof. reflexivity. Qed.

Lemma new_line_not_change ip hw :
  tagged logChangeMappingPrefix (new_line ip hw) = false.
Proof. reflexivity. Qed.

Lemma new_line_not_warning ip hw :
  tagged logWarningPrefix (new_line ip hw) = false.
Proof. reflexivity. Qed.

Lemma warning_line_not_classification layer : classification (warning_line layer) = false.
Proof. unfold warning_line. by destruct (negb _). Qed.

Lemma prettyPrint_raw_dump layer line : prettyPrint layer = Some line → raw_dump line = true.
Proof.
  unfold prettyPrint. destruct (ipv4_of_slice (SourceProtAddress layer)); [|done].
  destruct (ipv4_of_slice (DstProtAddress layer)); [|done].
  intros [= <-]. reflexivity.
Qed.

Lemma raw_dump_no_tag line :
  raw_dump line = true →
  tagged logWarningPrefix line = false ∧
  tagged logNewMappingPrefix line = false ∧
  tagged logChangeMappingPrefix line = false.
Proof.
  unfold raw_dump, classification.
  destruct (tagged logWarningPrefix line), (tagged logNewMappingPrefix line),
    (tagged logChangeMappingPrefix line); done.
Qed.

Lemma dump_of_no_tag m layer :
  List.filter (tagged logWarningPrefix) (dump_of m layer) = [] ∧
  List.filter (tagged logNewMappingPrefix) (dump_of m layer) = [] ∧
  List.filter (tagged logChangeMappingPrefix) (dump_of m layer) = [].
Proof.
  unfold dump_of. destruct (has_flag m LogAllPackets); [|done].
  destruct (prettyPrint layer) as [line|] eqn:E; [|done].
  apply prettyPrint_raw_dump, raw_dump_no_tag in E as (H1 & H2 & H3).
  simpl. by rewrite H1, H2, H3.
Qed.

(** ** The claims *)

Lemma announces_total order layer l ip hw :
  announces layer ip hw → is_Some (Log order layer l).
Proof.
  intros (Hv & Hw & Hip & _).
  destruct (Log order layer l) as [l'|] eqn:HL; [by eauto|].
  apply Log_None_iff in HL as (_ & HL).
  destruct Hv as [Hh Hp], Hw as (_ & Hs & _ & Hd).
  rewrite Hs, Hd, Hp in HL. simpl in HL. lia.
Qed.

(** A logger made by [NewLogger] is a starting point of [reachable]. *)
Lemma NewLogger_reachable (World : Type) (OpenFile : string → World → World * option N)
    (dest m : Z) (filename : string) (w w' : World) (l : Logger) (err : option error) :
  NewLogger World OpenFile dest m filename w = (w', (Some l, err)) → reachable l.
Proof.
  unfold NewLogger. destruct ((dest =? 0)%Z || (m =? 0)%Z); [done|].
  destruct (has_flag dest Print2Log);
    [destruct (OpenFile filename w) as [w1 [errno|]]|];
    intros [= _ <- _]; apply reachable_new.
Qed.

Lemma ex_state_reachable : reachable ex_state.
Proof.
  apply (reachable_Log (ex_logger LogNewPairs ∅) ex_state [] (ex_layer ex_A ex_M1)).
  - apply reachable_new.
  - unfold enumerates. simpl. by rewrite map_to_list_empty.
  - rewrite (Log_valid _ _ _ ex_A); [|by split|by intros [=]|done].
    cbv zeta. simpl arptable. rewrite lookup_empty. simpl first_holder.
    by rewrite after_after.
Qed.

(** C1. In every state that [Log] reaches from the empty table, whatever
    the announcements and the order of the visits, no two different IP keys
    hold the same hardware address; and when the announcement [(ip, hw)]
    arrives while [hw] is held under another key [old], the call that binds
    [ip] to [hw] also removes the entry under [old]. *)
Theorem no_self_conflict (l : Logger) :
  reachable l →
  no_conflict (arptable l) ∧
  ∀ order layer ip hw old,
    announces layer ip hw → enumerates order (arptable l) →
    old ≠ ip → arptable l !! old = Some hw →
    ∃ l', Log order layer l = Some l' ∧
          arptable l' !! ip = Some hw ∧ arptable l' !! old = None.
Proof.
  intros Hr. pose proof (reachable_no_conflict _ Hr) as Hn. split; [done|].
  intros order layer ip hw old Han He Hne Hold.
  destruct (announces_total order layer l ip hw Han) as [l' HL].
  exists l'. split; [done|].
  destruct Han as (Hv & _ & Hip & <-).
  destruct (Log_Some_valid _ _ _ _ Hv HL) as [Hd _].
  rewrite (Log_valid _ _ _ _ Hv Hd Hip) in HL. cbv zeta in HL.
  pose proof (first_holder_unique _ _ _ _ He Hn Hold) as Hf.
  destruct (arptable l !! ip) as [addr|] eqn:Hlk.
  - destruct (slices.Equal (SourceHwAddress layer) addr) eqn:E.
    + apply slices_Equal_true in E as <-. destruct Hne. eauto.
    + injection HL as <-. simpl. rewrite range_delete_first, Hf.
      by rewrite lookup_insert_eq, lookup_insert_ne, lookup_delete_eq.
  - rewrite Hf in HL. injection HL as <-. simpl.
    by rewrite lookup_insert_eq, lookup_insert_ne, lookup_delete_eq.
Qed.

Lemma no_self_conflict_witness :
  no_conflict (arptable ex_state) ∧
  ∃ l', Log [(ex_A, ex_M1)] (ex_layer ex_B ex_M1) ex_state = Some l' ∧
        arptable l' !! ex_B = Some ex_M1 ∧ arptable l' !! ex_A = None.
Proof.
  destruct (no_self_conflict ex_state ex_state_reachable) as [Hn Hmig].
  split; [exact Hn|].
  apply (Hmig [(ex_A, ex_M1)] (ex_layer ex_B ex_M1) ex_B ex_M1 ex_A).
  - repeat split; reflexivity.
  - unfold enumerates. simpl. by rewrite map_to_list_singleton.
  - discriminate.
  - apply lookup_singleton_eq.
Defined.

Lemma change_line_text (ip1 ip2 : ipv4) (hw1 hw2 : list byte) :
  change_line (netip.AddrFrom4 ip1) hw1 (netip.AddrFrom4 ip2) hw2 =
  "[CHANGE MAPPING] Previous mapping: "
    +:+ dotted_decimal ip1 +:+ " <-> " +:+ colon_hex hw1
    +:+ ", new mapping: "
    +:+ dotted_decimal ip2 +:+ " <-> " +:+ colon_hex hw2.
Proof.
  unfold change_line.
  by rewrite !Addr_String_dotted_decimal, !HardwareAddr_String_colon_hex.
Qed.

Lemma new_line_text (ip : ipv4) (hw : list byte) :
  new_line (netip.AddrFrom4 ip) hw =
  "[NEW MAPPING] " +:+ dotted_decimal ip +:+ " <-> " +:+ colon_hex hw.
Proof.
  unfold new_line.
  by rewrite Addr_String_dotted_decimal, HardwareAddr_String_colon_hex.
Qed.

Lemma filter_tagged_out tag m layer line :
  List.filter (tagged tag) (dump_of m layer) = [] →
  List.filter (tagged tag) (dump_of m layer ++ event_of m line) =
  if tagged tag line then event_of m line else [].
Proof.
  intros Hd. rewrite List.filter_app, Hd. unfold event_of.
  destruct (has_flag m LogNewPairs); simpl; by destruct (tagged tag line).
Qed.

Ltac filter_tags :=
  rewrite filter_tagged_out by apply dump_of_no_tag;
  rewrite ?tagged_change_line, ?tagged_new_line, ?change_line_not_new,
    ?change_line_not_warning, ?new_line_not_change, ?new_line_not_warning;
  reflexivity.

(** C2. From the table [{A: M1}], the announcement [(B, M1)] with [B ≠ A]
    leaves the table [{B: M1}]; the lines written hold no [NEW MAPPING] and
    no [WARNING] line, and exactly one [CHANGE MAPPING] line when
    report-changes mode is on (none when it is off), whose text shows the
    previous binding of [A] to [M1] and the new binding of [B] to [M1]. *)
Theorem migration_correct order layer l (A B : ipv4) (M1 : list byte) :
  announces layer B M1 → B ≠ A →
  arptable l = {[A := M1]} → enumerates order (arptable l) →
  ∃ out,
    Log order layer l = Some (after l out {[B := M1]}) ∧
    List.filter (tagged logChangeMappingPrefix) out =
      (if has_flag (mode l) LogNewPairs
       then [change_line (netip.AddrFrom4 A) M1 (netip.AddrFrom4 B) M1] else []) ∧
    List.filter (tagged logNewMappingPrefix) out = [] ∧
    List.filter (tagged logWarningPrefix) out = [] ∧
    change_line (netip.AddrFrom4 A) M1 (netip.AddrFrom4 B) M1 =
      "[CHANGE MAPPING] Previous mapping: "
        +:+ dotted_decimal A +:+ " <-> " +:+ colon_hex M1
        +:+ ", new mapping: "
        +:+ dotted_decimal B +:+ " <-> " +:+ colon_hex M1.
Proof.
  intros (Hv & Hw & Hip & Hhw) Hne Ht He.
  exists (dump_of (mode l) layer
            ++ event_of (mode l) (change_line (netip.AddrFrom4 A) M1 (netip.AddrFrom4 B) M1)).
  split; [|repeat split; [filter_tags..|apply change_line_text]].
  rewrite (Log_valid _ _ _ B Hv (well_sized_dumpable _ _ Hv Hw) Hip). cbv zeta.
  unfold enumerates in He. rewrite Ht, map_to_list_singleton in He.
  apply Permutation_singleton_r in He as ->.
  rewrite Ht, lookup_singleton_ne by done. simpl first_holder.
  rewrite Hhw, slices_Equal_refl, after_after.
  by rewrite delete_singleton_eq, insert_empty.
Qed.

Lemma migration_correct_witness :
  ∃ out,
    Log [(ex_A, ex_M1)] (ex_layer ex_B ex_M1) (ex_logger LogNewPairs {[ex_A := ex_M1]}) =
      Some (after (ex_logger LogNewPairs {[ex_A := ex_M1]}) out {[ex_B := ex_M1]}) ∧
    List.filter (tagged logChangeMappingPrefix) out =
      ["[CHANGE MAPPING] Previous mapping: 192.168.0.1 <-> 00:1a:2b:3c:4d:5e, new mapping: 192.168.0.2 <-> 00:1a:2b:3c:4d:5e"].
Proof.
  destruct (migration_correct [(ex_A, ex_M1)] (ex_layer ex_B ex_M1)
              (ex_logger LogNewPairs {[ex_A := ex_M1]}) ex_A ex_B ex_M1)
    as (out & HL & Hc & _).
  - repeat split; reflexivity.
  - discriminate.
  - reflexivity.
  - unfold enumerates. simpl. by rewrite map_to_list_singleton.
  - exists out. split; [exact HL|]. rewrite Hc. reflexivity.
Defined.

Lemma first_holder_absent order t hw :
  enumerates order t → (∀ k, t !! k ≠ Some hw) → first_holder hw order = None.
Proof.
  intros He Hfree. destruct (first_holder hw order) as [k|] eqn:Hf; [|done].
  destruct (Hfree k). by eapply first_holder_held.
Qed.

(** C4. When the table binds [A] to [M1] and no entry holds [M2], the
    announcement [(A, M2)] with [M2 ≠ M1] rebinds [A] to [M2] and leaves
    the other entries alone; the lines written hold no [NEW MAPPING] and no
    [WARNING] line, and exactly one [CHANGE MAPPING] line when
    report-changes mode is on (none when it is off), whose text shows the
    previous binding of [A] to [M1] and the new binding of [A] to [M2]. *)
Theorem changed_binding order layer l (A : ipv4) (M1 M2 : list byte) :
  announces layer A M2 →
  arptable l !! A = Some M1 → M1 ≠ M2 → (∀ k, arptable l !! k ≠ Some M2) →
  enumerates order (arptable l) →
  ∃ out,
    Log order layer l = Some (after l out (<[A := M2]> (arptable l))) ∧
    List.filter (tagged logChangeMappingPrefix) out =
      (if has_flag (mode l) LogNewPairs
       then [change_line (netip.AddrFrom4 A) M1 (netip.AddrFrom4 A) M2] else []) ∧
    List.filter (tagged logNewMappingPrefix) out = [] ∧
    List.filter (tagged logWarningPrefix) out = [] ∧
    change_line (netip.AddrFrom4 A) M1 (netip.AddrFrom4 A) M2 =
      "[CHANGE MAPPING] Previous mapping: "
        +:+ dotted_decimal A +:+ " <-> " +:+ colon_hex M1
        +:+ ", new mapping: "
        +:+ dotted_decimal A +:+ " <-> " +:+ colon_hex M2.
Proof.
  intros (Hv & Hw & Hip & Hhw) HA Hne Hfree He.
  exists (dump_of (mode l) layer
            ++ event_of (mode l) (change_line (netip.AddrFrom4 A) M1 (netip.AddrFrom4 A) M2)).
  split; [|repeat split; [filter_tags..|apply change_line_text]].
  rewrite (Log_valid _ _ _ A Hv (well_sized_dumpable _ _ Hv Hw) Hip). cbv zeta.
  rewrite HA, Hhw.
  assert (slices.Equal M2 M1 = false) as -> by (apply slices_Equal_false; congruence).
  rewrite range_delete_first, (first_holder_absent _ _ _ He Hfree), after_after.
  unfold at_key. by rewrite HA.
Qed.

Lemma changed_binding_witness :
  ∃ out,
    Log [(ex_A, ex_M1)] (ex_layer ex_A ex_M2) (ex_logger LogNewPairs {[ex_A := ex_M1]}) =
      Some (after (ex_logger LogNewPairs {[ex_A := ex_M1]}) out {[ex_A := ex_M2]}) ∧
    List.filter (tagged logChangeMappingPrefix) out =
      ["[CHANGE MAPPING] Previous mapping: 192.168.0.1 <-> 00:1a:2b:3c:4d:5e, new mapping: 192.168.0.1 <-> aa:bb:cc:dd:ee:ff"].
Proof.
  destruct (changed_binding [(ex_A, ex_M1)] (ex_layer ex_A ex_M2)
              (ex_logger LogNewPairs {[ex_A := ex_M1]}) ex_A ex_M1 ex_M2)
    as (out & HL & Hc & _).
  - repeat split; reflexivity.
  - apply lookup_singleton_eq.
  - discriminate.
  - intros k Hk. simpl arptable in Hk.
    by apply lookup_singleton_Some in Hk as [_ [=]].
  - unfold enumerates. simpl. by rewrite map_to_list_singleton.
  - exists out. split; [|rewrite Hc; reflexivity].
    rewrite HL. simpl arptable. by rewrite insert_singleton_eq.
Defined.

(** C5. From the empty table, the announcement [(A, M1)] leaves the table
    [{A: M1}]; the lines written hold no [CHANGE MAPPING] and no [WARNING]
    line, and exactly one [NEW MAPPING] line when report-changes mode is on
    (none when it is off), whose text shows the binding of [A] to [M1]. *)
Theorem new_binding order layer l (A : ipv4) (M1 : list byte) :
  announces layer A M1 →
  arptable l = ∅ → enumerates order (arptable l) →
  ∃ out,
    Log order layer l = Some (after l out {[A := M1]}) ∧
    List.filter (tagged logNewMappingPrefix) out =
      (if has_flag (mode l) LogNewPairs then [new_line (netip.AddrFrom4 A) M1] else []) ∧
    List.filter (tagged logChangeMappingPrefix) out = [] ∧
    List.filter (tagged logWarningPrefix) out = [] ∧
    new_line (netip.AddrFrom4 A) M1 =
      "[NEW MAPPING] " +:+ dotted_decimal A +:+ " <-> " +:+ colon_hex M1.
Proof.
  intros (Hv & Hw & Hip & Hhw) Ht He.
  exists (dump_of (mode l) layer ++ event_of (mode l) (new_line (netip.AddrFrom4 A) M1)).
  split; [|repeat split; [filter_tags..|apply new_line_text]].
  rewrite (Log_valid _ _ _ A Hv (well_sized_dumpable _ _ Hv Hw) Hip). cbv zeta.
  unfold enumerates in He. rewrite Ht, map_to_list_empty in He.
  apply Permutation_nil_r in He as ->.
  rewrite Ht, lookup_empty. simpl first_holder.
  by rewrite Hhw, after_after, insert_empty.
Qed.

Lemma new_binding_witness :
  ∃ out,
    Log [] (ex_layer ex_A ex_M1) (ex_logger LogNewPairs ∅) =
      Some (after (ex_logger LogNewPairs ∅) out {[ex_A := ex_M1]}) ∧
    List.filter (tagged logNewMappingPrefix) out =
      ["[NEW MAPPING] 192.168.0.1 <-> 00:1a:2b:3c:4d:5e"].
Proof.
  destruct (new_binding [] (ex_layer ex_A ex_M1) (ex_logger LogNewPairs ∅) ex_A ex_M1)
    as (out & HL & Hc & _).
  - repeat split; reflexivity.
  - reflexivity.
  - unfold enumerates. simpl. by rewrite map_to_list_empty.
  - exists out. split; [exact HL|]. rewrite Hc. reflexivity.
Defined.

Lemma classification_change_line ip1 hw1 ip2 hw2 :
  classification (change_line ip1 hw1 ip2 hw2) = true.
Proof. unfold classification. by rewrite tagged_change_line, orb_true_r. Qed.

Lemma classification_new_line ip hw : classification (new_line ip hw) = true.
Proof. unfold classification. by rewrite tagged_new_line. Qed.

Lemma dump_of_no_classification m layer :
  List.filter classification (dump_of m layer) = [].
Proof.
  unfold dump_of. destruct (has_flag m LogAllPackets); [|done].
  destruct (prettyPrint layer) as [line|] eqn:E; [|done].
  apply prettyPrint_raw_dump in E. unfold raw_dump in E. simpl.
  destruct (classification line); [|done]. by rewrite andb_false_r in E.
Qed.

Lemma classification_out m layer line :
  classification line = true →
  List.filter classification (dump_of m layer ++ event_of m line) = event_of m line.
Proof.
  intros Hc. rewrite List.filter_app, dump_of_no_classification. unfold event_of.
  destruct (has_flag m LogNewPairs); simpl; [by rewrite Hc|done].
Qed.

Lemma Log_repeat order layer l ip hw :
  announces layer ip hw → arptable l !! ip = Some hw →
  Log order layer l = Some (after l (dump_of (mode l) layer) (arptable l)).
Proof.
  intros (Hv & Hw & Hip & Hhw) Hlk.
  rewrite (Log_valid _ _ _ ip Hv (well_sized_dumpable _ _ Hv Hw) Hip). cbv zeta.
  by rewrite Hlk, Hhw, slices_Equal_refl.
Qed.

(** What one call for the announcement [(ip, hw)] leaves: [ip] bound to
    [hw], and one classification line in report-changes mode unless the
    binding was there already. *)
Lemma Log_binds order layer l ip hw :
  announces layer ip hw →
  ∃ l1, Log order layer l = Some l1 ∧
        arptable l1 !! ip = Some hw ∧
        length (List.filter classification (emitted l l1)) =
          if decide (arptable l !! ip = Some hw) then 0
          else if has_flag (mode l) LogNewPairs then 1 else 0.
Proof.
  intros (Hv & Hw & Hip & Hhw).
  rewrite (Log_valid _ _ _ ip Hv (well_sized_dumpable _ _ Hv Hw) Hip). cbv zeta.
  rewrite Hhw. destruct (decide (arptable l !! ip = Some hw)) as [Hlk|Hlk].
  - rewrite Hlk, slices_Equal_refl. eexists. split; [done|]. split; [done|].
    by rewrite emitted_after, dump_of_no_classification.
  - destruct (arptable l !! ip) as [addr|] eqn:Hlk'.
    + assert (slices.Equal hw addr = false) as ->
        by (apply slices_Equal_false; congruence).
      eexists. split; [done|]. simpl. split; [by rewrite lookup_insert_eq|].
      rewrite after_after, emitted_after, classification_out
        by apply classification_change_line.
      unfold event_of. by destruct (has_flag (mode l) LogNewPairs).
    + destruct (first_holder hw order) as [k|]; eexists;
        (split; [done|]); simpl; (split; [by rewrite lookup_insert_eq|]);
        rewrite after_after, emitted_after, classification_out
          by (apply classification_change_line || apply classification_new_line);
        unfold event_of; by destruct (has_flag (mode l) LogNewPairs).
Qed.

(** C3. For the announcement [(ip, hw)]: when the table already binds [ip]
    to [hw], [Log] leaves the table as it is and writes no classification
    line and no warning, whatever the mode; and of two calls in a row for
    the same announcement, the second leaves the table as the first left it
    and writes no classification line, while the first writes one in
    report-changes mode exactly when the binding was not there before. *)
Theorem repeat_is_silent layer (ip : ipv4) (hw : list byte) :
  announces layer ip hw →
  (∀ order l, arptable l !! ip = Some hw →
     ∃ out, Log order layer l = Some (after l out (arptable l)) ∧
            List.filter classification out = [] ∧
            List.filter (tagged logWarningPrefix) out = []) ∧
  (∀ order1 order2 l,
     ∃ l1 out2,
       Log order1 layer l = Some l1 ∧
       Log order2 layer l1 = Some (after l1 out2 (arptable l1)) ∧
       List.filter classification out2 = [] ∧
       length (List.filter classification (emitted l l1)) =
         if decide (arptable l !! ip = Some hw) then 0
         else if has_flag (mode l) LogNewPairs then 1 else 0).
Proof.
  intros Han. split.
  - intros order l Hlk. exists (dump_of (mode l) layer).
    split; [by eapply Log_repeat|].
    split; [apply dump_of_no_classification|apply dump_of_no_tag].
  - intros order1 order2 l.
    destruct (Log_binds order1 layer l ip hw Han) as (l1 & HL & Hlk & Hn).
    exists l1, (dump_of (mode l1) layer).
    split; [done|]. split; [by eapply Log_repeat|].
    split; [apply dump_of_no_classification|done].
Qed.

Lemma repeat_is_silent_witness :
  ∃ l1 out2,
    Log [] (ex_layer ex_A ex_M1) (ex_logger LogNewPairs ∅) = Some l1 ∧
    Log [(ex_A, ex_M1)] (ex_layer ex_A ex_M1) l1 = Some (after l1 out2 (arptable l1)) ∧
    List.filter classification out2 = [] ∧
    length (List.filter classification (emitted (ex_logger LogNewPairs ∅) l1)) = 1.
Proof.
  assert (announces (ex_layer ex_A ex_M1) ex_A ex_M1) as Han
    by (repeat split; reflexivity).
  destruct (repeat_is_silent (ex_layer ex_A ex_M1) ex_A ex_M1 Han) as [_ Htwice].
  destruct (Htwice [] [(ex_A, ex_M1)] (ex_logger LogNewPairs ∅))
    as (l1 & out2 & H1 & H2 & H3 & H4).
  exists l1, out2. repeat split; [exact H1|exact H2|exact H3|].
  rewrite H4. simpl arptable. rewrite lookup_empty. reflexivity.
Defined.

(** [Log] does not read the lines written before: the same call after
    further lines [out0] have been written gives the same table and writes
    the same lines. *)
Lemma Log_frame order layer l out0 :
  Log order layer (after l out0 (arptable l)) =
  (λ l1, after l (out0 ++ emitted l l1) (arptable l1)) <$> Log order layer l.
Proof.
  destruct (valid_dec layer) as [Hv|Hnv];
    [|rewrite !Log_invalid by done; simpl;
      by rewrite after_after, emitted_after].
  destruct (Log order layer l) as [l1|] eqn:HL; simpl.
  - destruct (Log_Some_valid _ _ _ _ Hv HL) as [Hd [ip Hip]].
    rewrite (Log_valid _ _ _ ip Hv Hd Hip) in HL.
    rewrite (Log_valid order layer (after l out0 (arptable l)) ip Hv Hd Hip).
    cbv zeta in *. simpl.
    destruct (arptable l !! ip) as [addr|];
      [destruct (slices.Equal _ _)|destruct (first_holder _ _)];
      injection HL as <-; by rewrite ?after_after, emitted_after, ?app_assoc.
  - apply Log_None_iff. by apply Log_None_iff in HL.
Qed.

(** C6. A layer whose hardware-address size is not 6 or whose
    protocol-address size is not 4 makes [Log] write one line, tagged
    [WARNING], which is neither a classification line nor a raw dump, and
    return with the table, the mode and the earlier lines as they were,
    whatever the mode; the call after it gives the table and writes the
    lines it would have without the rejected layer. *)
Theorem malformed_rejected order layer l :
  HwAddressSize layer ≠ 6%N ∨ ProtAddressSize layer ≠ 4%N →
  Log order layer l = Some (after l [warning_line layer] (arptable l)) ∧
  tagged logWarningPrefix (warning_line layer) = true ∧
  classification (warning_line layer) = false ∧
  raw_dump (warning_line layer) = false ∧
  ∀ order' next,
    Log order' next (after l [warning_line layer] (arptable l)) =
    (λ l1, after l ([warning_line layer] ++ emitted l l1) (arptable l1))
      <$> Log order' next l.
Proof.
  intros Hbad. assert (¬ valid layer) as Hnv by (intros [? ?]; tauto).
  split; [by apply Log_invalid|].
  split; [apply tagged_warning_line|].
  split; [apply warning_line_not_classification|].
  split; [|intros; apply Log_frame].
  unfold raw_dump. by rewrite tagged_warning_line.
Qed.

Lemma malformed_rejected_witness :
  Log [(ex_A, ex_M1)]
    {| HwAddressSize := 5; ProtAddressSize := 4; Operation := ARPRequest;
       SourceHwAddress := [x00; x1a; x2b; x3c; x4d];
       SourceProtAddress := [xc0; xa8; x00; x02];
       DstHwAddress := [x00; x00; x00; x00; x00];
       DstProtAddress := [xc0; xa8; x00; xfe] |}
    (ex_logger (Z.lor LogAllPackets LogNewPairs) {[ex_A := ex_M1]}) =
  Some (after (ex_logger (Z.lor LogAllPackets LogNewPairs) {[ex_A := ex_M1]})
          ["[WARNING] Packet MAC address size is not correct: 5, but should be 6 bytes"]
          {[ex_A := ex_M1]}).
Proof.
  refine (proj1 (malformed_rejected _ _ _ _)). left. discriminate.
Defined.

Lemma Log_table_mode order layer l l' l2 :
  Log order layer l = Some l' → arptable l2 = arptable l →
  dumpable (mode l2) layer →
  ∃ l2', Log order layer l2 = Some l2' ∧ arptable l2' = arptable l'.
Proof.
  intros HL Ht Hd2. destruct (valid_dec layer) as [Hv|Hnv].
  - destruct (Log_Some_valid _ _ _ _ Hv HL) as [Hd [ip Hip]].
    rewrite (Log_valid _ _ _ ip Hv Hd Hip) in HL.
    rewrite (Log_valid _ _ _ ip Hv Hd2 Hip). cbv zeta in *. rewrite Ht.
    destruct (arptable l !! ip) as [addr|];
      [destruct (slices.Equal _ _)|destruct (first_holder _ _)];
      injection HL as <-; by eexists.
  - rewrite Log_invalid in * by done. injection HL as <-. by eexists.
Qed.

Lemma findByHwAddr_first_holder hw order : findByHwAddr hw order = first_holder hw order.
Proof.
  unfold findByHwAddr. induction order as [|[k v] rest IH]; simpl; [done|].
  destruct (slices.Equal hw v) eqn:E.
  - apply slices_Equal_true in E as ->. by rewrite bool_decide_eq_true_2.
  - apply slices_Equal_false in E. by rewrite bool_decide_eq_false_2.
Qed.

Lemma Log_update_per_spec order layer l l' ip hw :
  announces layer ip hw → enumerates order (arptable l) →
  Log order layer l = Some l' →
  arptable l' = update_per_spec order ip hw (arptable l).
Proof.
  intros (Hv & Hw & Hip & Hhw) He HL.
  rewrite (Log_valid _ _ _ ip Hv (well_sized_dumpable _ _ Hv Hw) Hip) in HL.
  cbv zeta in HL. unfold update_per_spec.
  rewrite findByHwAddr_first_holder. rewrite Hhw in HL.
  destruct (arptable l !! ip) as [addr|] eqn:Hlk.
  - destruct (slices.Equal hw addr) eqn:E.
    + apply slices_Equal_true in E as <-. injection HL as <-.
      by rewrite decide_True.
    + apply slices_Equal_false in E. injection HL as <-. simpl.
      rewrite decide_False by congruence. rewrite range_delete_first.
      destruct (first_holder hw order) as [k|] eqn:Hf; [|done].
      rewrite decide_False; [done|]. intros ->.
      apply (first_holder_held _ _ _ _ He) in Hf. congruence.
  - destruct (first_holder hw order); by injection HL as <-.
Qed.

(** C7. With dump-all mode on and report-changes mode off, the
    announcement [(ip, hw)] makes [Log] write exactly one line, the raw dump
    of the layer, which carries no tag, and so no classification line; the
    table it leaves is the one the classification steps of the spec
    prescribe, and the one the same call leaves from the same table under
    any other mode. *)
Theorem dump_all_independent order layer l (ip : ipv4) (hw : list byte) :
  announces layer ip hw → enumerates order (arptable l) →
  has_flag (mode l) LogAllPackets = true → has_flag (mode l) LogNewPairs = false →
  ∃ line l',
    prettyPrint layer = Some line ∧
    Log order layer l = Some l' ∧
    emitted l l' = [line] ∧
    raw_dump line = true ∧ classification line = false ∧
    arptable l' = update_per_spec order ip hw (arptable l) ∧
    ∀ l2, arptable l2 = arptable l →
      ∃ l2', Log order layer l2 = Some l2' ∧ arptable l2' = arptable l'.
Proof.
  intros Han He Hall Hnew. pose proof Han as (Hv & Hw & Hip & Hhw).
  destruct (well_sized_dumpable layer (mode l) Hv Hw Hall) as [line Hline].
  assert (dump_of (mode l) layer = [line]) as Hdump
    by (unfold dump_of; by rewrite Hall, Hline).
  assert (event_of (mode l) = λ _, []) as Hev
    by (unfold event_of; by rewrite Hnew).
  pose proof (prettyPrint_raw_dump _ _ Hline) as Hraw.
  destruct (announces_total order layer l ip hw Han) as [l' HL].
  exists line, l'. split; [done|]. split; [done|].
  split; [|split; [done|split; [|split]]].
  - rewrite (Log_valid _ _ _ ip Hv (well_sized_dumpable _ _ Hv Hw) Hip) in HL.
    cbv zeta in HL. rewrite Hev, Hdump in HL.
    destruct (arptable l !! ip) as [addr|];
      [destruct (slices.Equal _ _)|destruct (first_holder _ _)];
      injection HL as <-; by rewrite ?after_after, emitted_after.
  - unfold raw_dump in Hraw. destruct (classification line); [|done].
    by rewrite andb_false_r in Hraw.
  - by eapply Log_update_per_spec.
  - intros l2 Ht. eapply Log_table_mode; [done..|].
    by apply well_sized_dumpable.
Qed.

Lemma dump_all_independent_witness :
  ∃ l',
    Log [(ex_A, ex_M1)] (ex_layer ex_B ex_M1) (ex_logger LogAllPackets {[ex_A := ex_M1]})
      = Some l' ∧
    emitted (ex_logger LogAllPackets {[ex_A := ex_M1]}) l' =
      ["Operation: Request, Source MAC: 00:1a:2b:3c:4d:5e, Source IP: 192.168.0.2, Destination MAC: 00:00:00:00:00:00, Destination IP: 192.168.0.254"].
Proof.
  destruct (dump_all_independent [(ex_A, ex_M1)] (ex_layer ex_B ex_M1)
              (ex_logger LogAllPackets {[ex_A := ex_M1]}) ex_B ex_M1)
    as (line & l' & Hline & HL & Hout & _).
  - repeat split; reflexivity.
  - unfold enumerates. simpl. by rewrite map_to_list_singleton.
  - reflexivity.
  - reflexivity.
  - exists l'. split; [exact HL|]. rewrite Hout. f_equal.
    injection Hline as <-. reflexivity.
Defined.

Lemma prettyPrint_layout layer src dst :
  ipv4_of_slice (SourceProtAddress layer) = Some src →
  ipv4_of_slice (DstProtAddress layer) = Some dst →
  prettyPrint layer =
  Some ("Operation: " +:+ operation_name (Operation layer)
          +:+ ", Source MAC: " +:+ colon_hex (SourceHwAddress layer)
          +:+ ", Source IP: " +:+ dotted_decimal src
          +:+ ", Destination MAC: " +:+ colon_hex (DstHwAddress layer)
          +:+ ", Destination IP: " +:+ dotted_decimal dst).
Proof.
  intros Hs Hd. unfold prettyPrint. rewrite Hs, Hd. simpl. f_equal.
  rewrite !HardwareAddr_String_colon_hex, !Addr_String_dotted_decimal.
  fold (operation_name (Operation layer)).
  rewrite append_nil_l. by rewrite !append_assoc.
Qed.

(** C8. For a layer that passes the validation and has fields of the
    declared sizes, the raw dump is the text "Operation: " with the name of
    the operation ("Request" for a request, "Reply" for a reply, nothing
    for another code), then ", Source MAC: " with the sender hardware
    address in colon-hex, ", Source IP: " with the sender IP in dotted
    decimal, ", Destination MAC: " and ", Destination IP: " with the target
    addresses in the same forms; and with dump-all mode on it is the first
    line [Log] writes. *)
Theorem raw_dump_layout layer :
  valid layer → well_sized layer →
  ∃ src dst op line,
    ipv4_of_slice (SourceProtAddress layer) = Some src ∧
    ipv4_of_slice (DstProtAddress layer) = Some dst ∧
    (Operation layer = ARPRequest → op = "Request") ∧
    (Operation layer = ARPReply → op = "Reply") ∧
    (Operation layer ≠ ARPRequest → Operation layer ≠ ARPReply → op = "") ∧
    line = "Operation: " +:+ op
             +:+ ", Source MAC: " +:+ colon_hex (SourceHwAddress layer)
             +:+ ", Source IP: " +:+ dotted_decimal src
             +:+ ", Destination MAC: " +:+ colon_hex (DstHwAddress layer)
             +:+ ", Destination IP: " +:+ dotted_decimal dst ∧
    prettyPrint layer = Some line ∧
    ∀ order l, has_flag (mode l) LogAllPackets = true →
      ∃ l' rest, Log order layer l = Some l' ∧ emitted l l' = line :: rest.
Proof.
  intros Hv Hw.
  destruct (well_sized_sender layer Hv Hw) as [src Hs].
  assert (is_Some (ipv4_of_slice (DstProtAddress layer))) as [dst Hd].
  { destruct Hv as [_ Hp], Hw as (_ & _ & _ & Hlen).
    apply ipv4_of_slice_Some. rewrite Hlen, Hp. simpl. lia. }
  pose proof (prettyPrint_layout layer src dst Hs Hd) as Hline.
  exists src, dst, (operation_name (Operation layer)). eexists.
  split; [done|]. split; [done|].
  split; [by intros ->|]. split; [by intros ->|].
  split; [|split; [reflexivity|split; [exact Hline|]]].
  { intros H1 H2. unfold operation_name.
    destruct (N.eqb_spec (Operation layer) ARPRequest); [done|].
    by destruct (N.eqb_spec (Operation layer) ARPReply). }
  intros order l Hall.
  assert (dump_of (mode l) layer = [_]) as Hdump
    by (unfold dump_of; rewrite Hall, Hline; reflexivity).
  rewrite (Log_valid _ _ _ src Hv (well_sized_dumpable _ _ Hv Hw) Hs).
  cbv zeta. rewrite Hdump.
  destruct (arptable l !! src) as [addr|];
    [destruct (slices.Equal _ _)|destruct (first_holder _ _)];
    eexists _, _; (split; [reflexivity|]);
    by rewrite ?after_after, emitted_after.
Qed.

Lemma raw_dump_layout_witness :
  prettyPrint (ex_layer ex_A ex_M2) =
  Some "Operation: Request, Source MAC: aa:bb:cc:dd:ee:ff, Source IP: 192.168.0.1, Destination MAC: 00:00:00:00:00:00, Destination IP: 192.168.0.254".
Proof.
  destruct (raw_dump_layout (ex_layer ex_A ex_M2))
    as (src & dst & op & line & Hs & Hd & Hreq & _ & _ & -> & Hline & _).
  - split; reflexivity.
  - repeat split; reflexivity.
  - rewrite Hline. injection Hs as <-. injection Hd as <-.
    rewrite (Hreq eq_refl). reflexivity.
Defined.

(** C9. [NewLogger] with [dest] or [mode] zero returns no logger and the
    configuration error, and leaves the file system as it was: no file has
    been opened.  With both nonzero it returns either a logger with the
    given mode and an empty table, or no logger and the error of the failed
    [os.OpenFile], never the configuration error. *)
Theorem NewLogger_configuration (World : Type) (OpenFile : string → World → World * option N)
    (dest m : Z) (filename : string) (w : World) :
  (dest = 0%Z ∨ m = 0%Z →
     NewLogger World OpenFile dest m filename w = (w, (None, Some config_error))) ∧
  (dest ≠ 0%Z ∧ m ≠ 0%Z →
     (NewLogger World OpenFile dest m filename w).2.2 ≠ Some config_error ∧
     ((∃ l, (NewLogger World OpenFile dest m filename w).2 = (Some l, None) ∧
            mode l = m ∧ arptable l = ∅ ∧ lines (logger l) = []) ∨
      (∃ errno, (NewLogger World OpenFile dest m filename w).2 =
                  (None, Some (PathError "open" filename errno)) ∧
                has_flag dest Print2Log = true))).
Proof.
  unfold NewLogger. split.
  - intros [-> | ->]; [done|]. by rewrite orb_true_r.
  - intros [Hd Hm].
    destruct (Z.eqb_spec dest 0) as [|_]; [done|].
    destruct (Z.eqb_spec m 0) as [|_]; [done|]. simpl.
    destruct (has_flag dest Print2Log) eqn:Hlog.
    + destruct (OpenFile filename w) as [w' [errno|]]; simpl.
      * split; [done|]. right. by exists errno.
      * split; [done|]. left. by eexists.
    + split; [done|]. left. by eexists.
Qed.

(** C10. [Log] panics exactly on the layers that pass the validation of
    the two declared sizes and whose sender protocol address has fewer than
    four bytes, or, in dump-all mode, whose target protocol address has
    fewer than four bytes; on a layer whose fields have the declared sizes
    it always returns. *)
Theorem Log_panics_on_short_addresses order layer l :
  (Log order layer l = None ↔
     (HwAddressSize layer = 6%N ∧ ProtAddressSize layer = 4%N) ∧
     (length (SourceProtAddress layer) < 4 ∨
      has_flag (mode l) LogAllPackets = true ∧ length (DstProtAddress layer) < 4)) ∧
  (well_sized layer → is_Some (Log order layer l)).
Proof.
  split; [apply Log_None_iff|].
  intros Hw. destruct (Log order layer l) as [l'|] eqn:HL; [by eauto|].
  apply Log_None_iff in HL as ([Hh Hp] & HL).
  destruct Hw as (_ & Hs & _ & Hd). rewrite Hs, Hd, Hp in HL. simpl in HL. lia.
Qed.

Lemma Log_panics_on_short_addresses_witness :
  Log [] ex_short (ex_logger LogNewPairs ∅) = None.
Proof.
  apply (proj1 (Log_panics_on_short_addresses [] ex_short (ex_logger LogNewPairs ∅))).
  split; [by split|]. left. simpl. lia.
Defined.

(** ** Further properties of [Log] *)

Lemma first_holder_any_order o1 o2 t hw :
  enumerates o1 t → enumerates o2 t → no_conflict t →
  first_holder hw o1 = first_holder hw o2.
Proof.
  intros H1 H2 Hn. destruct (first_holder hw o1) as [k|] eqn:Hf; symmetry.
  - apply (first_holder_unique o2 t hw k H2 Hn). by apply (first_holder_held o1).
  - apply (first_holder_absent o2 t hw H2). by apply (first_holder_free o1).
Qed.

Lemma Log_first_holder o1 o2 layer l :
  first_holder (SourceHwAddress layer) o1 = first_holder (SourceHwAddress layer) o2 →
  Log o1 layer l = Log o2 layer l.
Proof.
  intros Hf. destruct (valid_dec layer) as [Hv|Hnv];
    [|by rewrite !Log_invalid].
  destruct (Log o1 layer l) as [l1|] eqn:HL.
  - destruct (Log_Some_valid _ _ _ _ Hv HL) as [Hd [ip Hip]]. rewrite <- HL.
    rewrite !(Log_valid _ _ _ ip Hv Hd Hip). cbv zeta.
    by rewrite !range_delete_first, Hf.
  - symmetry. apply Log_None_iff. by apply Log_None_iff in HL.
Qed.

Lemma ex_state_Log :
  Log [] (ex_layer ex_A ex_M1) (ex_logger LogNewPairs ∅) = Some ex_state.
Proof.
  rewrite (Log_valid _ _ _ ex_A); [|by split|by intros [=]|done].
  cbv zeta. simpl arptable. rewrite lookup_empty. simpl first_holder.
  by rewrite after_after.
Qed.

Lemma ex_state2_Log :
  Log [(ex_A, ex_M1)] (ex_layer ex_B ex_M2) ex_state = Some ex_state2.
Proof.
  rewrite (Log_valid _ _ _ ex_B); [|by split|by intros [=]|done].
  cbv zeta. simpl arptable. rewrite lookup_singleton_ne by done.
  simpl first_holder. unfold ex_state2, ex_table2, ex_state.
  by rewrite !after_after.
Qed.

Lemma ex_table2_orders :
  enumerates [(ex_B, ex_M2); (ex_A, ex_M1)] ex_table2 ∧
  enumerates [(ex_A, ex_M1); (ex_B, ex_M2)] ex_table2.
Proof.
  assert (enumerates [(ex_B, ex_M2); (ex_A, ex_M1)] ex_table2) as H.
  { unfold enumerates, ex_table2.
    rewrite map_to_list_insert by (by apply lookup_singleton_ne).
    by rewrite map_to_list_singleton. }
  split; [done|]. unfold enumerates in *. rewrite <- H. apply perm_swap.
Qed.

Lemma ex_state2_reachable : reachable ex_state2.
Proof.
  apply (reachable_Log ex_state ex_state2 [(ex_A, ex_M1)] (ex_layer ex_B ex_M2)).
  - apply ex_state_reachable.
  - unfold enumerates. simpl. by rewrite map_to_list_singleton.
  - apply ex_state2_Log.
Qed.

(** X1. In a state that [Log] reaches from the empty table, the result of a
    call, panic included, is the same for every order in which [range] may
    visit the table. *)
Theorem Log_order_irrelevant o1 o2 layer l :
  reachable l → enumerates o1 (arptable l) → enumerates o2 (arptable l) →
  Log o1 layer l = Log o2 layer l.
Proof.
  intros Hr H1 H2. apply Log_first_holder.
  apply (first_holder_any_order o1 o2 (arptable l)); [done..|].
  by apply reachable_no_conflict.
Qed.

Lemma Log_order_irrelevant_witness :
  Log [(ex_B, ex_M2); (ex_A, ex_M1)] (ex_layer ex_A ex_M2) ex_state2 =
  Log [(ex_A, ex_M1); (ex_B, ex_M2)] (ex_layer ex_A ex_M2) ex_state2.
Proof.
  apply (Log_order_irrelevant _ _ _ ex_state2).
  - apply ex_state2_reachable.
  - apply ex_table2_orders.
  - apply ex_table2_orders.
Defined.

(** X2. A call for the announcement [(ip, hw)] changes the table at the
    key [ip] and nowhere else, but for an entry that held [hw], which it
    may remove; it adds no other key and changes no other value. *)
Theorem Log_touches_only_sender order layer l (ip : ipv4) (hw : list byte) :
  announces layer ip hw → enumerates order (arptable l) →
  ∃ l', Log order layer l = Some l' ∧
    ∀ k, k ≠ ip →
      arptable l' !! k = arptable l !! k ∨
      (arptable l !! k = Some hw ∧ arptable l' !! k = None).
Proof.
  intros (Hv & Hw & Hip & Hhw) He.
  rewrite (Log_valid _ _ _ ip Hv (well_sized_dumpable _ _ Hv Hw) Hip). cbv zeta.
  rewrite Hhw, range_delete_first.
  assert (∀ k0 k, k ≠ ip → first_holder hw order = Some k0 →
            <[ip := hw]> (delete k0 (arptable l)) !! k = arptable l !! k ∨
            (arptable l !! k = Some hw ∧
             <[ip := hw]> (delete k0 (arptable l)) !! k = None)) as Hdel.
  { intros k0 k Hk Hf. rewrite lookup_insert_ne by done.
    destruct (decide (k0 = k)) as [->|Hne].
    - right. split; [by eapply first_holder_held|apply lookup_delete_eq].
    - left. by apply lookup_delete_ne. }
  destruct (arptable l !! ip) as [addr|];
    [destruct (slices.Equal hw addr)|];
    [|destruct (first_holder hw order) as [k0|] eqn:Hf..];
    eexists; (split; [done|]); intros k Hk; simpl;
    try (by left); try (by eapply Hdel);
    left; by rewrite lookup_insert_ne.
Qed.

Lemma Log_touches_only_sender_witness :
  ∃ l', Log [(ex_B, ex_M2); (ex_A, ex_M1)] (ex_layer ex_A ex_M2) ex_state2 = Some l' ∧
    ∀ k, k ≠ ex_A →
      arptable l' !! k = arptable ex_state2 !! k ∨
      (arptable ex_state2 !! k = Some ex_M2 ∧ arptable l' !! k = None).
Proof.
  apply (Log_touches_only_sender _ (ex_layer ex_A ex_M2) ex_state2 ex_A ex_M2).
  - repeat split; reflexivity.
  - apply ex_table2_orders.
Defined.

(** X3. When the table binds [A] to [M1] and another key [K] holds [M2],
    in a state that [Log] reaches from the empty table, the announcement
    [(A, M2)] rebinds [A] to [M2] and removes the entry of [K]; the only
    tagged line, written in report-changes mode, is the [CHANGE MAPPING]
    line of [A] from [M1] to [M2]: the removal of [K] is not reported. *)
Theorem changed_binding_takes_over order layer l (A K : ipv4) (M1 M2 : list byte) :
  announces layer A M2 → reachable l → enumerates order (arptable l) →
  arptable l !! A = Some M1 → M1 ≠ M2 → arptable l !! K = Some M2 →
  ∃ out,
    Log order layer l = Some (after l out (<[A := M2]> (delete K (arptable l)))) ∧
    List.filter (tagged logChangeMappingPrefix) out =
      (if has_flag (mode l) LogNewPairs
       then [change_line (netip.AddrFrom4 A) M1 (netip.AddrFrom4 A) M2] else []) ∧
    List.filter (tagged logNewMappingPrefix) out = [] ∧
    List.filter (tagged logWarningPrefix) out = [].
Proof.
  intros (Hv & Hw & Hip & Hhw) Hr He HA Hne HK.
  exists (dump_of (mode l) layer
            ++ event_of (mode l) (change_line (netip.AddrFrom4 A) M1 (netip.AddrFrom4 A) M2)).
  split; [|repeat split; filter_tags].
  assert (K ≠ A) as HKA by (intros ->; congruence).
  rewrite (Log_valid _ _ _ A Hv (well_sized_dumpable _ _ Hv Hw) Hip). cbv zeta.
  rewrite HA, Hhw.
  assert (slices.Equal M2 M1 = false) as -> by (apply slices_Equal_false; congruence).
  rewrite range_delete_first,
    (first_holder_unique _ _ _ _ He (reachable_no_conflict _ Hr) HK), after_after.
  unfold at_key. by rewrite lookup_delete_ne, HA.
Qed.

Lemma changed_binding_takes_over_witness :
  ∃ out,
    Log [(ex_B, ex_M2); (ex_A, ex_M1)] (ex_layer ex_A ex_M2) ex_state2 =
      Some (after ex_state2 out {[ex_A := ex_M2]}) ∧
    List.filter (tagged logChangeMappingPrefix) out =
      ["[CHANGE MAPPING] Previous mapping: 192.168.0.1 <-> 00:1a:2b:3c:4d:5e, new mapping: 192.168.0.1 <-> aa:bb:cc:dd:ee:ff"].
Proof.
  destruct (changed_binding_takes_over [(ex_B, ex_M2); (ex_A, ex_M1)]
              (ex_layer ex_A ex_M2) ex_state2 ex_A ex_B ex_M1 ex_M2)
    as (out & HL & Hc & _).
  - repeat split; reflexivity.
  - apply ex_state2_reachable.
  - apply ex_table2_orders.
  - unfold ex_state2, ex_table2. simpl arptable.
    rewrite lookup_insert_ne by done; try apply lookup_singleton_eq.
  - discriminate.
  - unfold ex_state2, ex_table2. simpl arptable. apply lookup_insert_eq.
  - exists out. split; [|rewrite Hc; reflexivity].
    rewrite HL. simpl arptable. unfold ex_table2.
    by rewrite delete_insert_eq, delete_singleton_ne, insert_singleton_eq.
Defined.

Lemma dump_of_shape m layer :
  length (dump_of m layer) ≤ 1 ∧ Forall (λ s, raw_dump s = true) (dump_of m layer).
Proof.
  unfold dump_of. destruct (has_flag m LogAllPackets); [|split; [simpl; lia|constructor]].
  destruct (prettyPrint layer) as [line|] eqn:E; [|split; [simpl; lia|constructor]].
  split; [simpl; lia|]. apply Forall_singleton. by eapply prettyPrint_raw_dump.
Qed.

Lemma event_of_shape m line :
  raw_dump line = false →
  length (event_of m line) ≤ 1 ∧ Forall (λ s, raw_dump s = false) (event_of m line).
Proof.
  intros Hl. unfold event_of.
  destruct (has_flag m LogNewPairs); [|split; [simpl; lia|constructor]].
  split; [simpl; lia|]. by apply Forall_singleton.
Qed.

Lemma classification_not_raw_dump line : classification line = true → raw_dump line = false.
Proof. intros H. unfold raw_dump. rewrite H. apply andb_false_r. Qed.

(** X4. A call that returns keeps the mode, the writers and the lines
    written before, and adds at most two lines: at most one raw dump, then
    at most one tagged line. *)
Theorem Log_appends order layer l l' :
  Log order layer l = Some l' →
  ∃ dump tag,
    l' = after l (dump ++ tag) (arptable l') ∧
    length dump ≤ 1 ∧ length tag ≤ 1 ∧
    Forall (λ s, raw_dump s = true) dump ∧
    Forall (λ s, raw_dump s = false) tag.
Proof.
  intros HL. destruct (valid_dec layer) as [Hv|Hnv].
  - destruct (Log_Some_valid _ _ _ _ Hv HL) as [Hd [ip Hip]].
    rewrite (Log_valid _ _ _ ip Hv Hd Hip) in HL. cbv zeta in HL.
    pose proof (dump_of_shape (mode l) layer) as [Hlen Hraw].
    destruct (arptable l !! ip) as [addr|];
      [destruct (slices.Equal _ _)|destruct (first_holder _ _)];
      injection HL as <-; rewrite ?after_after; simpl arptable.
    1: { exists (dump_of (mode l) layer), []. rewrite app_nil_r.
         repeat split; try done. simpl; lia. }
    all: match goal with |- context [event_of _ ?line] =>
           destruct (event_of_shape (mode l) line) as [H1 H2];
             [apply classification_not_raw_dump;
              (apply classification_change_line || apply classification_new_line)|];
           exists (dump_of (mode l) layer), (event_of (mode l) line)
         end; by repeat split.
  - rewrite Log_invalid in HL by done. injection HL as <-.
    exists [], [warning_line layer]. simpl. repeat split; try done; try lia.
    apply Forall_singleton. unfold raw_dump. by rewrite tagged_warning_line.
Qed.

Lemma Log_appends_witness :
  ∃ dump tag,
    ex_state2 = after ex_state (dump ++ tag) (arptable ex_state2) ∧
    length dump ≤ 1 ∧ length tag ≤ 1 ∧
    Forall (λ s, raw_dump s = true) dump ∧
    Forall (λ s, raw_dump s = false) tag.
Proof.
  apply (Log_appends [(ex_A, ex_M1)] (ex_layer ex_B ex_M2) ex_state ex_state2).
  apply ex_state2_Log.
Defined.

(** X5. With a mode that has neither the dump-all nor the report-changes
    bit, nonzero or not, a call for the announcement [(ip, hw)] writes no
    line at all and still binds [ip] to [hw]. *)
Theorem silent_mode_still_tracks order layer l (ip : ipv4) (hw : list byte) :
  announces layer ip hw →
  has_flag (mode l) LogAllPackets = false → has_flag (mode l) LogNewPairs = false →
  ∃ l', Log order layer l = Some l' ∧
        emitted l l' = [] ∧ arptable l' !! ip = Some hw.
Proof.
  intros (Hv & Hw & Hip & Hhw) Hall Hnew.
  rewrite (Log_valid _ _ _ ip Hv (well_sized_dumpable _ _ Hv Hw) Hip). cbv zeta.
  assert (dump_of (mode l) layer = []) as -> by (unfold dump_of; by rewrite Hall).
  assert (event_of (mode l) = λ _, []) as -> by (unfold event_of; by rewrite Hnew).
  rewrite Hhw. destruct (arptable l !! ip) as [addr|] eqn:Hlk;
    [destruct (slices.Equal hw addr) eqn:E|destruct (first_holder hw order)];
    eexists; (split; [reflexivity|]);
    rewrite ?after_after, emitted_after; (split; [done|]); simpl;
    rewrite ?lookup_insert_eq; try done.
  apply slices_Equal_true in E. by subst.
Qed.

Lemma silent_mode_still_tracks_witness :
  ∃ l', Log [] (ex_layer ex_A ex_M1) (ex_logger 4 ∅) = Some l' ∧
        emitted (ex_logger 4 ∅) l' = [] ∧ arptable l' !! ex_A = Some ex_M1.
Proof.
  apply (silent_mode_still_tracks [] (ex_layer ex_A ex_M1) (ex_logger 4 ∅) ex_A ex_M1).
  - repeat split; reflexivity.
  - reflexivity.
  - reflexivity.
Defined.

(** ** Further properties of [NewLogger] and [Close] *)

(** X6. With [dest] and [mode] nonzero and no log-file bit in [dest],
    [NewLogger] never calls [os.OpenFile]: the file system is as it was,
    and the logger writes to the standard output if [dest] has the console
    bit and nowhere otherwise. *)
Theorem NewLogger_without_file (World : Type) (OpenFile : string → World → World * option N)
    (dest m : Z) (filename : string) (w : World) :
  dest ≠ 0%Z → m ≠ 0%Z → has_flag dest Print2Log = false →
  NewLogger World OpenFile dest m filename w =
    (w, (Some {| logger := {| writers := if has_flag dest Print2Console
                                         then [Stdout] else [];
                              lines := [] |};
                 mode := m; arptable := ∅ |}, None)).
Proof.
  intros Hd Hm Hlog. unfold NewLogger.
  destruct (Z.eqb_spec dest 0) as [|_]; [done|].
  destruct (Z.eqb_spec m 0) as [|_]; [done|]. simpl. rewrite Hlog.
  by destruct (has_flag dest Print2Console).
Qed.

Lemma NewLogger_without_file_witness :
  NewLogger (list string) (λ name w, (name :: w, None)) 4 LogNewPairs "arp.log" [] =
    ([], (Some {| logger := {| writers := []; lines := [] |};
                  mode := LogNewPairs; arptable := ∅ |}, None)).
Proof.
  apply (NewLogger_without_file (list string) (λ name w, (name :: w, None))
           4 LogNewPairs "arp.log" []); [discriminate|discriminate|reflexivity].
Defined.

(** X7. When [dest] has the log-file bit and [os.OpenFile] fails,
    [NewLogger] returns the error of the failure and no logger, also when
    [dest] has the console bit: there is no fall-back to the console. *)
Theorem NewLogger_open_failure (World : Type) (OpenFile : string → World → World * option N)
    (dest m : Z) (filename : string) (w w' : World) (errno : N) :
  m ≠ 0%Z → has_flag dest Print2Log = true →
  OpenFile filename w = (w', Some errno) →
  NewLogger World OpenFile dest m filename w =
    (w', (None, Some (PathError "open" filename errno))).
Proof.
  intros Hm Hlog Hopen. unfold NewLogger.
  destruct (Z.eqb_spec dest 0) as [->|_]; [done|].
  destruct (Z.eqb_spec m 0) as [|_]; [done|]. simpl.
  by rewrite Hlog, Hopen.
Qed.

Lemma NewLogger_open_failure_witness :
  NewLogger (list string) (λ name w, (name :: w, Some 13%N))
    (Z.lor Print2Log Print2Console) LogAllPackets "/var/log/arplogger/a.log" [] =
    (["/var/log/arplogger/a.log"],
     (None, Some (PathError "open" "/var/log/arplogger/a.log" 13))).
Proof.
  apply NewLogger_open_failure; [discriminate|reflexivity|reflexivity].
Defined.

(** X8. On a logger that [NewLogger] has returned, [Close] returns no
    error and calls neither [Sync] nor [Close] on a file, the log file
    opened by [NewLogger] included: the writer of the logger is the one of
    [io.MultiWriter], never an [*os.File]. *)
Theorem Close_leaves_file_open (World : Type)
    (OpenFile File_Sync File_Close : string → World → World * option N)
    (dest m : Z) (filename : string) (w w' : World) (l : Logger) :
  NewLogger World OpenFile dest m filename w = (w', (Some l, None)) →
  has_flag dest Print2Log = true →
  In (FileWriter filename) (writers (logger l)) ∧
  ∀ w'', Close World File_Sync File_Close l w'' = (w'', None).
Proof.
  intros HN Hlog. split; [|done].
  unfold NewLogger in HN. destruct ((dest =? 0)%Z || (m =? 0)%Z); [done|].
  rewrite Hlog in HN. destruct (OpenFile filename w) as [w1 [errno|]]; [done|].
  injection HN as _ <-. simpl. destruct (has_flag dest Print2Console); simpl; auto.
Qed.

Lemma Close_leaves_file_open_witness :
  Close (list string) (λ name w, (("sync " +:+ name) :: w, None))
    (λ name w, (("close " +:+ name) :: w, None))
    {| logger := {| writers := [FileWriter "arp.log"; Stdout]; lines := [] |};
       mode := LogNewPairs; arptable := ∅ |} ["open arp.log"] =
  (["open arp.log"], None).
Proof.
  refine (proj2 (Close_leaves_file_open (list string) (λ name w, (("open " +:+ name) :: w, None))
           _ _ (Z.lor Print2Log Print2Console) LogNewPairs "arp.log" [] ["open arp.log"]
           _ _ _) _); reflexivity.
Defined.

(** ** Package [main]: flags, file name and packet loop *)

Lemma has_flag_lor_other (d : Z) :
  has_flag (Z.lor d Print2Console) Print2Log = has_flag d Print2Log.
Proof.
  unfold has_flag. by rewrite Z.land_lor_distr_l, Z.lor_0_r.
Qed.

Lemma has_flag_lor_same (d flag : Z) : has_flag (Z.lor d flag) flag = true.
Proof.
  unfold has_flag. apply Z.eqb_eq, Z.bits_inj'. intros n _.
  rewrite Z.land_spec, Z.lor_spec.
  by destruct (Z.testbit d n), (Z.testbit flag n).
Qed.

(** X9. The mode and the destination that [getMode] and [getDest] build
    hold exactly the flags of the command line: each bit test that [Log]
    and [NewLogger] make gives back the value of the flag it stands for. *)
Theorem flags_round_trip (f : Flags) :
  has_flag (getMode f) LogAllPackets = flagLogAll f ∧
  has_flag (getMode f) LogNewPairs = flagLogNewPair f ∧
  has_flag (getDest f) Print2Log = flagPrint2Log f ∧
  has_flag (getDest f) Print2Console = flagPrint2Console f.
Proof.
  unfold getMode, getDest.
  destruct (flagLogAll f), (flagLogNewPair f), (flagPrint2Log f),
    (flagPrint2Console f); by repeat split.
Qed.

Lemma parseFlags_accepts (f : Flags) :
  (parseFlags f).1 = true →
  (flagPrint2Console f = true ∨ flagPrint2Log f = true) ∧
  (flagLogAll f = true ∨ flagLogNewPair f = true).
Proof.
  unfold parseFlags. destruct (NFlag f =? 0); [done|].
  destruct (flagPrint2Console f), (flagPrint2Log f); simpl; try done;
    destruct (flagLogAll f), (flagLogNewPair f); simpl; try done; auto.
Qed.

Section MainProperties.

Context (World : Type) (GOOS : string) (user_Current : World → option string)
  (os_TempDir : World → string) (filepath_Join : list string → string)
  (os_MkdirAll : string → N → World → World * option error)
  (time_Now_Format : World → string) (strerror : N → string)
  (OpenFile : string → World → World * option N).

Local Abbreviation genFilename' :=
  (genFilename World GOOS user_Current os_TempDir filepath_Join os_MkdirAll
     time_Now_Format).
Local Abbreviation getLogFilename' :=
  (getLogFilename World GOOS user_Current os_TempDir filepath_Join os_MkdirAll
     time_Now_Format strerror).

Lemma getLogFilename_dest dest w w1 filename dest' out :
  getLogFilename' dest w = Some (w1, (filename, dest', out)) →
  dest' = dest ∨ dest' = Z.lor dest Print2Console.
Proof.
  unfold getLogFilename. destruct (has_flag dest Print2Log); [|intros [=]; auto].
  destruct (genFilename' w) as [[w2 [name [err|]]]|]; simpl; intros [=]; auto.
Qed.

(** X10. For a command line that [parseFlags] accepts, the call of
    [NewLogger] that [main] makes, with the mode of [getMode] and with the
    destination of [getDest] as [getLogFilename] leaves it, never returns
    the configuration error. *)
Theorem accepted_flags_configure (f : Flags) (w w1 : World)
    (filename : string) (dest : Z) (out : list string) :
  (parseFlags f).1 = true →
  getLogFilename' (getDest f) w = Some (w1, (filename, dest, out)) →
  (NewLogger World OpenFile dest (getMode f) filename w1).2.2 ≠ Some config_error.
Proof.
  intros Hacc Hget. apply parseFlags_accepts in Hacc as [Hdest Hmode].
  assert (getDest f ≠ 0%Z) as Hd.
  { unfold getDest. destruct Hdest as [-> | ->];
      [by destruct (flagPrint2Log f)|by destruct (flagPrint2Console f)]. }
  assert (getMode f ≠ 0%Z) as Hm.
  { unfold getMode. destruct Hmode as [-> | ->];
      [by destruct (flagLogNewPair f)|by destruct (flagLogAll f)]. }
  assert (dest ≠ 0%Z) as Hd'.
  { apply getLogFilename_dest in Hget as [-> | ->]; [done|].
    intros [? _]%Z.lor_eq_0_iff. done. }
  unfold NewLogger.
  destruct (Z.eqb_spec dest 0) as [|_]; [done|].
  destruct (Z.eqb_spec (getMode f) 0) as [|_]; [done|]. simpl.
  destruct (has_flag dest Print2Log); [|done].
  by destruct (OpenFile filename w1) as [w2 [errno|]].
Qed.

(** X11. When [genFilename] fails, [getLogFilename] returns the empty file
    name, writes that it falls back to the console, and sets the console
    bit of the destination without clearing the log-file bit; so
    [NewLogger] still calls [os.OpenFile], on the empty name, and returns a
    logger only if that call succeeds. *)
Theorem failed_file_name_fallback (dest m : Z) (w w1 : World)
    (name : string) (err : error) :
  has_flag dest Print2Log = true → m ≠ 0%Z →
  genFilename' w = Some (w1, (name, Some err)) →
  name = "" ∧
  getLogFilename' dest w =
    Some (w1, ("", Z.lor dest Print2Console,
               ["Can't create log file due to error " +:+ error_Error strerror err
                  +:+ ". Default printing to console."])) ∧
  has_flag (Z.lor dest Print2Console) Print2Log = true ∧
  NewLogger World OpenFile (Z.lor dest Print2Console) m "" w1 =
    match OpenFile "" w1 with
    | (w2, Some errno) => (w2, (None, Some (PathError "open" "" errno)))
    | (w2, None) =>
        (w2, (Some {| logger := {| writers := [FileWriter ""; Stdout]; lines := [] |};
                      mode := m; arptable := ∅ |}, None))
    end.
Proof.
  intros Hlog Hm Hgen.
  assert (name = "") as ->.
  { unfold genFilename in Hgen.
    destruct (if String.eqb GOOS "darwin" then _ else _) as [root|]; [|done].
    simpl in Hgen. destruct (os_MkdirAll _ _ _) as [w2 [e|]]; by injection Hgen. }
  split; [done|]. split.
  { unfold getLogFilename. by rewrite Hlog, Hgen. }
  split; [by rewrite has_flag_lor_other|].
  unfold NewLogger.
  destruct (Z.eqb_spec (Z.lor dest Print2Console) 0) as [H0|_].
  { apply Z.lor_eq_0_iff in H0 as [_ ?]. done. }
  destruct (Z.eqb_spec m 0) as [|_]; [done|]. simpl.
  rewrite has_flag_lor_other, Hlog, has_flag_lor_same.
  by destruct (OpenFile "" w1) as [w2 [errno|]].
Qed.

End MainProperties.

Lemma accepted_flags_configure_witness :
  (NewLogger unit (λ _ w, (w, None)) Print2Console LogNewPairs "" tt).2.2
    ≠ Some config_error.
Proof.
  apply (accepted_flags_configure unit "linux" (λ _, None) (λ _, "/tmp")
           (String.concat "/") (λ _ _ w, (w, None)) (λ _, "2024-01-01_00.00.00")
           (λ _, "permission denied") (λ _ w, (w, None))
           {| flagPrint2Log := false; flagPrint2Console := true; flagLogAll := false;
              flagLogNewPair := true; flagIntf := "en0"; NFlag := 3 |}
           tt tt "" Print2Console []); reflexivity.
Defined.

Lemma failed_file_name_fallback_witness :
  NewLogger unit (λ _ w, (w, Some 2%N)) (Z.lor Print2Log Print2Console) LogNewPairs "" tt =
    (tt, (None, Some (PathError "open" "" 2))).
Proof.
  refine (proj2 (proj2 (proj2
    (failed_file_name_fallback unit "linux" (λ _, None) (λ _, "/tmp")
       (String.concat "/")
       (λ path _ w, (w, Some (PathError "mkdir" path 13)))
       (λ _, "2024-01-01_00.00.00") (λ _, "permission denied")
       (λ _ w, (w, Some 2%N))
       Print2Log LogNewPairs tt tt "" (PathError "mkdir" "/var/log/arplogger" 13)
       _ _ _)))); [reflexivity|discriminate|reflexivity].
Defined.

Lemma Log_mode order layer l l' : Log order layer l = Some l' → mode l' = mode l.
Proof.
  intros HL. destruct (valid_dec layer) as [Hv|Hnv];
    [|rewrite Log_invalid in HL by done; by injection HL as <-].
  destruct (Log_Some_valid _ _ _ _ Hv HL) as [Hd [ip Hip]].
  rewrite (Log_valid _ _ _ ip Hv Hd Hip) in HL. cbv zeta in HL.
  destruct (arptable l !! ip) as [addr|];
    [destruct (slices.Equal _ _)|destruct (first_holder _ _)];
    by injection HL as <-.
Qed.

Lemma Log_same_bindings order layer l1 l2 :
  arptable l1 = arptable l2 → mode l1 = mode l2 →
  match Log order layer l1, Log order layer l2 with
  | Some a, Some b => arptable a = arptable b ∧ mode a = mode b
  | None, None => True
  | _, _ => False
  end.
Proof.
  intros Ht Hm. destruct (Log order layer l1) as [a|] eqn:H1.
  - assert (∃ b, Log order layer l2 = Some b ∧ arptable b = arptable a) as (b & H2 & Hb).
    { destruct (valid_dec layer) as [Hv|Hnv].
      - eapply Log_table_mode; [done..|]. rewrite <- Hm.
        by eapply Log_Some_valid.
      - rewrite Log_invalid in * by done. injection H1 as <-. eexists. by split. }
    rewrite H2. split; [done|].
    apply Log_mode in H1, H2. congruence.
  - apply Log_None_iff in H1. rewrite Hm in H1.
    apply (Log_None_iff order layer l2) in H1. by rewrite H1.
Qed.

Lemma processPackets_reachable turns l l' :
  reachable l → visits_ok turns l →
  processPackets turns l = Returned l' ∨ processPackets turns l = Waiting l' →
  reachable l'.
Proof.
  revert l. induction turns as [|[|[layer|] order|] rest IH]; intros l Hr Hok; simpl.
  - by intros [[=]|[= <-]].
  - by intros [[= <-]|[=]].
  - simpl in Hok. destruct Hok as [He Hok].
    destruct (Log order layer l) as [l1|] eqn:HL; [|by intros [[=]|[=]]].
    apply IH; [|done]. by eapply reachable_Log.
  - by apply IH.
  - by intros [[=]|[=]].
Qed.

(** X12. A run of [processPackets] that starts from a state [Log] reaches
    from the empty table, whatever the packets and the orders of the
    visits, ends, when it returns or is left waiting, in such a state
    again: no two IP keys of its table hold the same hardware address. *)
Theorem processPackets_no_conflict turns l l' :
  reachable l → visits_ok turns l →
  processPackets turns l = Returned l' ∨ processPackets turns l = Waiting l' →
  reachable l' ∧ no_conflict (arptable l').
Proof.
  intros Hr Hok Hrun.
  assert (reachable l') as Hr' by by eapply processPackets_reachable.
  split; [done|]. by apply reachable_no_conflict.
Qed.

Lemma processPackets_no_conflict_witness :
  reachable ex_state2 ∧ no_conflict (arptable ex_state2).
Proof.
  apply (processPackets_no_conflict
           [received (Some (ex_layer ex_A ex_M1)) []; received None [];
            received (Some (ex_layer ex_B ex_M2)) [(ex_A, ex_M1)]; ctx_Done]
           (ex_logger LogNewPairs ∅) ex_state2).
  - apply reachable_new.
  - cbn [visits_ok]. rewrite ex_state_Log. cbn [visits_ok]. rewrite ex_state2_Log.
    split; [unfold enumerates; simpl; by rewrite map_to_list_empty|].
    split; [unfold enumerates; simpl; by rewrite map_to_list_singleton|done].
  - left. cbn [processPackets]. rewrite ex_state_Log. cbn [processPackets].
    by rewrite ex_state2_Log.
Defined.

Lemma processPackets_same_bindings turns l1 l2 :
  arptable l1 = arptable l2 → mode l1 = mode l2 →
  same_bindings (processPackets (List.filter relevant turns) l1) (processPackets turns l2).
Proof.
  revert l1 l2. induction turns as [|[|[layer|] order|] rest IH]; intros l1 l2 Ht Hm; simpl.
  - done.
  - done.
  - destruct (N.eqb_spec (HwAddressSize layer) 6) as [Hh|Hh];
      [destruct (N.eqb_spec (ProtAddressSize layer) 4) as [Hp|Hp]|]; simpl.
    + pose proof (Log_same_bindings order layer l1 l2 Ht Hm) as Hs.
      destruct (Log order layer l1) as [a|], (Log order layer l2) as [b|]; try done.
      destruct Hs. by apply IH.
    + rewrite (Log_invalid order layer l2) by (intros [? ?]; done). by apply IH.
    + rewrite (Log_invalid order layer l2) by (intros [? ?]; done). by apply IH.
  - by apply IH.
  - done.
Qed.

(** X13. Packets without an ARP layer and layers that the validation
    rejects never change the bindings: a run of [processPackets] ends the
    same way (returned, waiting or panic), with the same table and mode, as
    the run without them. *)
Theorem processPackets_skips_irrelevant turns l :
  same_bindings (processPackets (List.filter relevant turns) l) (processPackets turns l).
Proof. by apply processPackets_same_bindings. Qed.

Lemma new_lines_after l out t :
  new_lines (after l out t) =
  new_lines l + length (List.filter (tagged logNewMappingPrefix) out).
Proof. unfold new_lines, after. simpl. by rewrite List.filter_app, length_app. Qed.

Lemma Log_size_new order layer l l' :
  enumerates order (arptable l) → has_flag (mode l) LogNewPairs = true →
  Log order layer l = Some l' →
  size (arptable l') + new_lines l ≤ size (arptable l) + new_lines l'.
Proof.
  intros He Hnew HL. destruct (valid_dec layer) as [Hv|Hnv].
  - destruct (Log_Some_valid _ _ _ _ Hv HL) as [Hd [ip Hip]].
    rewrite (Log_valid _ _ _ ip Hv Hd Hip) in HL. cbv zeta in HL.
    pose proof (dump_of_no_tag (mode l) layer) as (_ & Hdump & _).
    destruct (arptable l !! ip) as [addr|] eqn:Hlk.
    + destruct (slices.Equal (SourceHwAddress layer) addr) eqn:E; injection HL as <-.
      * rewrite new_lines_after, Hdump. simpl. lia.
      * rewrite after_after, new_lines_after, filter_tagged_out, change_line_not_new
          by done.
        simpl arptable. rewrite range_delete_first.
        apply slices_Equal_false in E.
        destruct (first_holder _ order) as [k|] eqn:Hf.
        -- apply (first_holder_held _ _ _ _ He) in Hf.
           rewrite map_size_insert_Some, map_size_delete_Some by
             (rewrite ?lookup_delete_ne by congruence; eauto). simpl. lia.
        -- rewrite map_size_insert_Some by eauto. simpl. lia.
    + destruct (first_holder _ order) as [k|] eqn:Hf; injection HL as <-;
        rewrite after_after, new_lines_after, filter_tagged_out by done;
        simpl arptable.
      * apply (first_holder_held _ _ _ _ He) in Hf.
        rewrite map_size_insert_None, map_size_delete_Some by
          (rewrite ?lookup_delete_ne by congruence; eauto).
        assert (size (arptable l) ≠ 0) by (apply map_size_ne_0_lookup; eauto). lia.
      * rewrite map_size_insert_None, tagged_new_line by done.
        unfold event_of. rewrite Hnew. simpl. lia.
  - rewrite Log_invalid in HL by done. injection HL as <-. simpl arptable.
    rewrite new_lines_after. lia.
Qed.

(** X14. In report-changes mode, in a state that [Log] reaches from the
    empty table, the table has at most as many entries as [NEW MAPPING]
    lines have been written: every binding it holds goes back to an
    announcement that was reported as new. *)
Theorem table_bounded_by_new_lines (l : Logger) :
  reachable l → has_flag (mode l) LogNewPairs = true →
  size (arptable l) ≤ new_lines l.
Proof.
  induction 1 as [lg m|l l' order layer _ IH He HL]; intros Hnew; simpl.
  - rewrite map_size_empty. lia.
  - rewrite (Log_mode _ _ _ _ HL) in Hnew.
    pose proof (Log_size_new _ _ _ _ He Hnew HL). specialize (IH Hnew). lia.
Qed.

Lemma table_bounded_by_new_lines_witness :
  size (arptable ex_state2) ≤ new_lines ex_state2.
Proof.
  apply (table_bounded_by_new_lines ex_state2);
    [apply ex_state2_reachable|reflexivity].
Defined.
